(** * tf-cdk-example: from config.json to CDKTF declarations

    A shallow embedding of [main.go].  The program reads [config.json],
    decodes it with [encoding/json] into the [Config] struct, and declares
    one stack with an AWS provider, an S3 bucket, an optional versioning
    resource and two outputs through the CDKTF library, which it finally
    asks to synthesize.

    The file is organised as the program is:
    - [fmt]     : the part of [fmt.Sprintf] that main.go uses;
    - [json]    : [json.Unmarshal] for the two struct types of main.go
                  (scanner, string unquoting, decoding into fields);
    - [cdktf]   : the construct tree that the CDKTF calls build;
    - the program itself ([Config], [StorageConfig], [main]);
    - what is read off a run and off a document, and the examples;
    - the properties: first of the decoder, then of the run. *)

From Stdlib Require Import ZArith NArith Ascii String List Bool Lia.
From stdpp Require Import base option gmap strings list fin_maps.

Import ListNotations.
Local Open Scope string_scope.

(** The newline character, written [\n] in the Go source. *)
Definition nl : string := String (ascii_of_nat 10) EmptyString.

(** ** fmt *)

Module fmt.

(** Go's [error] interface is a value with an [Error() string] method.
    The errors of this program come from [os.ReadFile] and from
    [json.Unmarshal]; their text is carried by the error value. *)
Section Verbs.
Context {error : Type} (Error : error → string).

(** An operand of a formatting call. *)
Inductive operand :=
| VString (s : string)
| VError (e : error).

(** [%s] and [%v] print a string as it is and an error through its
    [Error] method. *)
Definition operand_text (a : operand) : string :=
  match a with
  | VString s => s
  | VError e => Error e
  end.

Definition operand_type (a : operand) : string :=
  match a with
  | VString _ => "string"
  | VError _ => "error"
  end.

(** What fmt appends when operands are left over:
    [%!(EXTRA type=value, ...)]. *)
Fixpoint extra_list (args : list operand) : string :=
  match args with
  | [] => ""
  | [a] => operand_type a ++ "=" ++ operand_text a
  | a :: rest => operand_type a ++ "=" ++ operand_text a ++ ", " ++ extra_list rest
  end.

Definition extra (args : list operand) : string :=
  match args with
  | [] => ""
  | _ => "%!(EXTRA " ++ extra_list args ++ ")"
  end.

(** [Sprintf format args].  The verbs interpreted are the ones main.go
    writes: [%s], [%v] and [%%], without flags or width.  A verb that
    finds no operand prints [%!s(MISSING)], a lone [%] at the end
    prints [%!(NOVERB)], and another verb letter prints fmt's wrong-verb
    form [%!c(type=value)]. *)
Fixpoint Sprintf (format : string) (args : list operand) : string :=
  match format with
  | EmptyString => extra args
  | String "%" EmptyString => "%!(NOVERB)" ++ extra args
  | String "%" (String "%" rest) => String "%" (Sprintf rest args)
  | String "%" (String c rest) =>
      match args with
      | [] => "%!" ++ String c "(MISSING)" ++ Sprintf rest []
      | a :: args' =>
          if (Ascii.eqb c "s" || Ascii.eqb c "v")%bool
          then operand_text a ++ Sprintf rest args'
          else "%!" ++ String c "(" ++ operand_type a ++ "=" ++ operand_text a
                    ++ ")" ++ Sprintf rest args'
      end
  | String c rest => String c (Sprintf rest args)
  end.

End Verbs.

Arguments VString {error} s.
Arguments VError {error} e.

End fmt.

(** ** encoding/json *)

Module json.

(** A JSON text, as [json.Unmarshal] sees it once the scanner has accepted
    it.  A number keeps its literal; the members of an object keep their
    order and their duplicates, since the decoder visits them one by
    one. *)
#[local] Unset Elimination Schemes.
Inductive Value :=
| JNull
| JBool (b : bool)
| JNumber (lit : string)
| JString (s : string)
| JArray (elems : list Value)
| JObject (members : list (string * Value)).
#[local] Set Elimination Schemes.

(** [Unmarshal] fails with a [*SyntaxError] on a text that is not JSON and
    with an [*UnmarshalTypeError] on a JSON value that does not fit the Go
    value it is decoded into.  [value] is the [Value] field of the Go
    error, the JSON kind found, and [type] its [Type] field, the Go type
    it was meant for; the byte offset and the field path of the Go error
    are left out. *)
Inductive error :=
| SyntaxError
| UnmarshalTypeError (value type : string).

(** *** Bytes *)

Definition code (c : ascii) : N := N_of_ascii c.

Definition between (lo hi : N) (c : ascii) : bool :=
  ((lo <=? code c) && (code c <=? hi))%N.

Definition isSpace (c : ascii) : bool :=
  (Ascii.eqb c " " || (code c =? 9) || (code c =? 13) || (code c =? 10))%N.

Definition isDigit (c : ascii) : bool := between 48 57 c.
Definition isDigit19 (c : ascii) : bool := between 49 57 c.

Definition isHex (c : ascii) : bool :=
  isDigit c || between 97 102 c || between 65 70 c.

Definition hexval (c : ascii) : N :=
  if isDigit c then code c - 48
  else if between 97 102 c then code c - 87
  else code c - 55.

Definition byte (n : N) : ascii := ascii_of_N (n mod 256).

Fixpoint rev_string (acc : list ascii) (tail : string) : string :=
  match acc with
  | [] => tail
  | c :: acc' => rev_string acc' (String c tail)
  end.

(** *** The scanner: from bytes to tokens

    [scanner.go] is a state machine that is fed one byte at a time.  The
    states below are its states inside a literal; the states between
    literals are those of [parse_step] further down. *)

Inductive token :=
| TBeginObject | TEndObject | TBeginArray | TEndArray | TColon | TComma
| TString (raw : string)
| TNumber (lit : string)
| TTrue | TFalse | TNull.

(** The states of a numeric literal: [stateNeg], [state0], [state1],
    [stateDot], [stateDot0], [stateE], [stateESign], [stateE0]. *)
Inductive numState := NNeg | N0 | N1 | NDot | NDot0 | NE | NESign | NE0.

Definition num_step (ns : numState) (c : ascii) : option numState :=
  let isE := (Ascii.eqb c "e" || Ascii.eqb c "E")%bool in
  match ns with
  | NNeg => if Ascii.eqb c "0" then Some N0
            else if isDigit19 c then Some N1 else None
  | N1 => if isDigit c then Some N1
          else if Ascii.eqb c "." then Some NDot
          else if isE then Some NE else None
  | N0 => if Ascii.eqb c "." then Some NDot
          else if isE then Some NE else None
  | NDot => if isDigit c then Some NDot0 else None
  | NDot0 => if isDigit c then Some NDot0
             else if isE then Some NE else None
  | NE => if (Ascii.eqb c "+" || Ascii.eqb c "-")%bool then Some NESign
          else if isDigit c then Some NE0 else None
  | NESign => if isDigit c then Some NE0 else None
  | NE0 => if isDigit c then Some NE0 else None
  end.

(** The states in which a numeric literal may end. *)
Definition num_final (ns : numState) : bool :=
  match ns with
  | N0 | N1 | NDot0 | NE0 => true
  | _ => false
  end.

Inductive lexState :=
| LBetween
| LInString (acc : list ascii)
| LInStringEsc (acc : list ascii)
| LInStringEscU (acc : list ascii) (seen : nat)
| LNum (acc : list ascii) (ns : numState)
| LLit (tok : token) (expected : string).

(** [stateBeginValue] and the punctuation cases of [stateEndValue]: the
    byte that follows a complete token. *)
Definition lex_begin (c : ascii) : option (lexState * list token) :=
  if isSpace c then Some (LBetween, [])
  else if Ascii.eqb c "{" then Some (LBetween, [TBeginObject])
  else if Ascii.eqb c "}" then Some (LBetween, [TEndObject])
  else if Ascii.eqb c "[" then Some (LBetween, [TBeginArray])
  else if Ascii.eqb c "]" then Some (LBetween, [TEndArray])
  else if Ascii.eqb c ":" then Some (LBetween, [TColon])
  else if Ascii.eqb c "," then Some (LBetween, [TComma])
  else if (code c =? 34)%N then Some (LInString [], [])
  else if Ascii.eqb c "-" then Some (LNum [c] NNeg, [])
  else if Ascii.eqb c "0" then Some (LNum [c] N0, [])
  else if isDigit19 c then Some (LNum [c] N1, [])
  else if Ascii.eqb c "t" then Some (LLit TTrue "rue", [])
  else if Ascii.eqb c "f" then Some (LLit TFalse "alse", [])
  else if Ascii.eqb c "n" then Some (LLit TNull "ull", [])
  else None.

Definition isSimpleEscape (c : ascii) : bool :=
  (Ascii.eqb c "b" || Ascii.eqb c "f" || Ascii.eqb c "n" || Ascii.eqb c "r"
   || Ascii.eqb c "t" || Ascii.eqb c "\" || Ascii.eqb c "/"
   || (code c =? 34)%N)%bool.

Definition lex_step (st : lexState) (c : ascii) : option (lexState * list token) :=
  match st with
  | LBetween => lex_begin c
  | LInString acc =>
      if (code c =? 34)%N then Some (LBetween, [TString (rev_string acc "")])
      else if Ascii.eqb c "\" then Some (LInStringEsc (c :: acc), [])
      else if (code c <? 32)%N then None
      else Some (LInString (c :: acc), [])
  | LInStringEsc acc =>
      if isSimpleEscape c then Some (LInString (c :: acc), [])
      else if Ascii.eqb c "u" then Some (LInStringEscU (c :: acc) 0, [])
      else None
  | LInStringEscU acc seen =>
      if isHex c
      then if Nat.eqb seen 3 then Some (LInString (c :: acc), [])
           else Some (LInStringEscU (c :: acc) (S seen), [])
      else None
  | LNum acc ns =>
      match num_step ns c with
      | Some ns' => Some (LNum (c :: acc) ns', [])
      | None =>
          if num_final ns
          then match lex_begin c with
               | Some (st', toks) => Some (st', TNumber (rev_string acc "") :: toks)
               | None => None
               end
          else None
      end
  | LLit tok expected =>
      match expected with
      | String e EmptyString => if Ascii.eqb c e then Some (LBetween, [tok]) else None
      | String e rest => if Ascii.eqb c e then Some (LLit tok rest, []) else None
      | EmptyString => None
      end
  end.

(** The end of the input ([scanner.eof]). *)
Definition lex_end (st : lexState) : option (list token) :=
  match st with
  | LBetween => Some []
  | LNum acc ns => if num_final ns then Some [TNumber (rev_string acc "")] else None
  | _ => None
  end.

Fixpoint lex (st : lexState) (data : string) : option (list token) :=
  match data with
  | EmptyString => lex_end st
  | String c rest =>
      match lex_step st c with
      | Some (st', toks) =>
          match lex st' rest with
          | Some more => Some (toks ++ more)%list
          | None => None
          end
      | None => None
      end
  end.

(** *** Strings: [unquote]

    The scanner has checked the escapes; [unquote] replaces them, and
    coerces the bytes that are not UTF-8 to U+FFFD as it copies. *)

Definition isSurrogate (r : N) : bool := ((55296 <=? r) && (r <? 57344))%N.

(** [utf16.DecodeRune]: the code point of a surrogate pair, U+FFFD when
    the two halves are not a pair. *)
Definition utf16_DecodeRune (r1 r2 : N) : N :=
  if ((55296 <=? r1) && (r1 <? 56320) && (56320 <=? r2) && (r2 <? 57344))%N
  then ((r1 - 55296) * 1024 + (r2 - 56320) + 65536)%N
  else 65533%N.

(** [utf8.EncodeRune], in front of [tail]. *)
Definition EncodeRune (r : N) (tail : string) : string :=
  let r := if (isSurrogate r || (1114111 <? r)%N)%bool then 65533%N else r in
  if (r <? 128)%N then String (byte r) tail
  else if (r <? 2048)%N then
    String (byte (192 + r / 64)) (String (byte (128 + r mod 64)) tail)
  else if (r <? 65536)%N then
    String (byte (224 + r / 4096))
      (String (byte (128 + (r / 64) mod 64)) (String (byte (128 + r mod 64)) tail))
  else
    String (byte (240 + r / 262144))
      (String (byte (128 + (r / 4096) mod 64))
         (String (byte (128 + (r / 64) mod 64)) (String (byte (128 + r mod 64)) tail))).

(** [getu4]: the four hexadecimal digits of a [\u] escape. *)
Definition getu4 (h1 h2 h3 h4 : ascii) : option N :=
  if isHex h1 && isHex h2 && isHex h3 && isHex h4
  then Some (((hexval h1 * 16 + hexval h2) * 16 + hexval h3) * 16 + hexval h4)%N
  else None.

(** The pair half that may follow a [\u] surrogate: [getu4] of the next
    six bytes, when they are an escape. *)
Definition next_u4 (s : string) : option N :=
  match s with
  | String b (String u (String g1 (String g2 (String g3 (String g4 _))))) =>
      if (Ascii.eqb b "\" && Ascii.eqb u "u")%bool then getu4 g1 g2 g3 g4 else None
  | _ => None
  end.

Definition unescape (c : ascii) : ascii :=
  if Ascii.eqb c "b" then byte 8
  else if Ascii.eqb c "f" then byte 12
  else if Ascii.eqb c "n" then byte 10
  else if Ascii.eqb c "r" then byte 13
  else if Ascii.eqb c "t" then byte 9
  else c.

(** The length of the UTF-8 sequence that starts with [b0], as
    [utf8.DecodeRune] accepts it, from its first byte and the range it
    demands of the second; 0 when [b0] starts no sequence. *)
Definition utf8_shape (b0 : ascii) : nat * N * N :=
  let x := code b0 in
  if (x <? 194)%N then (0, 0%N, 0%N)
  else if (x <? 224)%N then (2, 128%N, 191%N)
  else if (x =? 224)%N then (3, 160%N, 191%N)
  else if (x =? 237)%N then (3, 128%N, 159%N)
  else if (x <? 240)%N then (3, 128%N, 191%N)
  else if (x =? 240)%N then (4, 144%N, 191%N)
  else if (x <? 244)%N then (4, 128%N, 191%N)
  else if (x =? 244)%N then (4, 128%N, 143%N)
  else (0, 0%N, 0%N).

Definition isCont (c : ascii) : bool := between 128 191 c.

Definition replacement (tail : string) : string := EncodeRune 65533 tail.

Fixpoint unquote (s : string) : option string :=
  match s with
  | EmptyString => Some ""
  | String c rest =>
      if Ascii.eqb c "\" then
        match rest with
        | EmptyString => None
        | String e rest1 =>
            if isSimpleEscape e then String (unescape e) <$> unquote rest1
            else if Ascii.eqb e "u" then
              match rest1 with
              | String h1 (String h2 (String h3 (String h4 rest2))) =>
                  match getu4 h1 h2 h3 h4 with
                  | None => None
                  | Some rr =>
                      if isSurrogate rr then
                        match rest2 with
                        | String _ (String _ (String _ (String _ (String _ (String _ rest3))))) =>
                            match next_u4 rest2 with
                            | Some rr1 =>
                                let dec := utf16_DecodeRune rr rr1 in
                                if (dec =? 65533)%N
                                then replacement <$> unquote rest2
                                else EncodeRune dec <$> unquote rest3
                            | None => replacement <$> unquote rest2
                            end
                        | _ => replacement <$> unquote rest2
                        end
                      else EncodeRune rr <$> unquote rest2
                  end
              | _ => None
              end
            else None
        end
      else if ((code c =? 34) || (code c <? 32))%N then None
      else if (code c <? 128)%N then String c <$> unquote rest
      else
        let '(n, lo, hi) := utf8_shape c in
        match n, rest with
        | 2, String b1 rest1 =>
            if between lo hi b1
            then (fun t => String c (String b1 t)) <$> unquote rest1
            else replacement <$> unquote rest
        | 3, String b1 (String b2 rest2) =>
            if between lo hi b1 && isCont b2
            then (fun t => String c (String b1 (String b2 t))) <$> unquote rest2
            else replacement <$> unquote rest
        | 4, String b1 (String b2 (String b3 rest3)) =>
            if between lo hi b1 && isCont b2 && isCont b3
            then (fun t => String c (String b1 (String b2 (String b3 t)))) <$> unquote rest3
            else replacement <$> unquote rest
        | _, _ => replacement <$> unquote rest
        end
  end.

(** *** From tokens to a value

    Between literals the scanner is a pushdown automaton: its
    [parseState] stack holds one entry for each array or object that is
    open.  A [frame] is such an entry, together with what has been read
    of the container so far. *)

Inductive frame :=
| FArray (elems : list Value)
| FObject (members : list (string * Value)) (key : string).

Inductive parseState :=
| PValue (stk : list frame)
| PArrayStart (stk : list frame)
| PObjectStart (stk : list frame)
| PKey (members : list (string * Value)) (stk : list frame)
| PColon (members : list (string * Value)) (key : string) (stk : list frame)
| PEnd (v : Value) (stk : list frame).

(** [maxNestingDepth] of scanner.go. *)
Definition maxNestingDepth : N := 10000.

(** [stateBeginValue] on the first token of a value; [stk] has one frame
    for each container that is open around it, and opening one more must
    stay within [maxNestingDepth]. *)
Definition begin_value (t : token) (stk : list frame) : option parseState :=
  let open := (N.of_nat (length stk) + 1 <=? maxNestingDepth)%N in
  match t with
  | TBeginArray => if open then Some (PArrayStart stk) else None
  | TBeginObject => if open then Some (PObjectStart stk) else None
  | TString raw => (fun s => PEnd (JString s) stk) <$> unquote raw
  | TNumber lit => Some (PEnd (JNumber lit) stk)
  | TTrue => Some (PEnd (JBool true) stk)
  | TFalse => Some (PEnd (JBool false) stk)
  | TNull => Some (PEnd JNull stk)
  | _ => None
  end.

Definition parse_step (st : parseState) (t : token) : option parseState :=
  match st with
  | PValue stk => begin_value t stk
  | PArrayStart stk =>
      match t with
      | TEndArray => Some (PEnd (JArray []) stk)
      | _ => begin_value t (FArray [] :: stk)
      end
  | PObjectStart stk =>
      match t with
      | TEndObject => Some (PEnd (JObject []) stk)
      | TString raw => (fun k => PColon [] k stk) <$> unquote raw
      | _ => None
      end
  | PKey members stk =>
      match t with
      | TString raw => (fun k => PColon members k stk) <$> unquote raw
      | _ => None
      end
  | PColon members key stk =>
      match t with
      | TColon => Some (PValue (FObject members key :: stk))
      | _ => None
      end
  | PEnd v stk =>
      match stk, t with
      | FArray elems :: stk', TComma => Some (PValue (FArray (v :: elems) :: stk'))
      | FArray elems :: stk', TEndArray => Some (PEnd (JArray (rev (v :: elems))) stk')
      | FObject members key :: stk', TComma => Some (PKey ((key, v) :: members) stk')
      | FObject members key :: stk', TEndObject =>
          Some (PEnd (JObject (rev ((key, v) :: members))) stk')
      | _, _ => None
      end
  end.

Fixpoint parse_tokens (st : parseState) (toks : list token) : option Value :=
  match toks with
  | [] => match st with PEnd v [] => Some v | _ => None end
  | t :: rest =>
      match parse_step st t with
      | Some st' => parse_tokens st' rest
      | None => None
      end
  end.

(** [checkValid] and the reading of the value in one: [None] is a
    [*SyntaxError]. *)
Definition parse (data : string) : option Value :=
  match lex LBetween data with
  | Some toks => parse_tokens (PValue []) toks
  | None => None
  end.

(** *** Decoding into Go values (decode.go)

    The decoder walks the value and the Go value it is given side by
    side.  It does not stop at a value of the wrong kind: it records the
    first such error ([saveError]), skips the value and goes on, and
    [Unmarshal] returns the recorded error at the end. *)

Definition saveError (e : error) (saved : option error) : option error :=
  match saved with
  | None => Some e
  | Some _ => saved
  end.

(** The [Value] field of an [UnmarshalTypeError]. *)
Definition kind (v : Value) : string :=
  match v with
  | JNull => "null"
  | JBool _ => "bool"
  | JNumber _ => "number"
  | JString _ => "string"
  | JArray _ => "array"
  | JObject _ => "object"
  end.

(** A decoder for Go values of type [T]: the JSON value, the Go value as
    it is, the error saved so far; the Go value as it becomes, the error
    saved then. *)
Definition decoder (T : Type) : Type := Value → T → option error → T * option error.

(** [literalStore], [array] and [object] on a Go [string]: a JSON string is
    stored, [null] leaves the Go value as it is, anything else is an
    error. *)
Definition decode_string : decoder string := fun v s saved =>
  match v with
  | JNull => (s, saved)
  | JString x => (x, saved)
  | _ => (s, saveError (UnmarshalTypeError (kind v) "string") saved)
  end.

(** The same on a Go [bool]. *)
Definition decode_bool : decoder bool := fun v b saved =>
  match v with
  | JNull => (b, saved)
  | JBool x => (x, saved)
  | _ => (b, saveError (UnmarshalTypeError (kind v) "bool") saved)
  end.

(** A field of a struct type: the name its [json] tag gives it, and how a
    value is decoded into it. *)
Record field (T : Type) := Field { name : string; store : decoder T }.
Arguments Field {T} name store.
Arguments name {T} f.
Arguments store {T} f.

(** The decoder of a field of type [U] inside a struct of type [T]. *)
Definition at_field {T U : Type} (get : T → U) (set : U → T → T)
    (dec : decoder U) : decoder T := fun v t saved =>
  let '(u, saved') := dec v (get t) saved in (set u t, saved').

(** [foldName]: the key under which a name is looked up when no field has
    exactly that name.  ASCII letters are put in upper case; U+017F and
    U+212A, the two runes outside ASCII whose case folding reaches an
    ASCII letter, become [S] and [K].  Every other rune folds to a rune
    outside ASCII, and so meets no field name of this program; such bytes
    are left as they are. *)
Fixpoint foldName (s : string) : string :=
  match s with
  | EmptyString => EmptyString
  | String c rest =>
      if between 97 122 c then String (byte (code c - 32)) (foldName rest)
      else
        match rest with
        | String c1 rest1 =>
            if ((code c =? 197) && (code c1 =? 191))%N then String "S" (foldName rest1)
            else
              match rest1 with
              | String c2 rest2 =>
                  if ((code c =? 226) && (code c1 =? 132) && (code c2 =? 170))%N
                  then String "K" (foldName rest2)
                  else String c (foldName rest)
              | EmptyString => String c (foldName rest)
              end
        | EmptyString => String c EmptyString
        end
  end.

(** The lookup of a member's key among the fields: [byExactName] first,
    [byFoldedName] then. *)
Definition find_field {T : Type} (fields : list (field T)) (key : string)
    : option (field T) :=
  match find (fun f => String.eqb (name f) key) fields with
  | Some f => Some f
  | None => find (fun f => String.eqb (foldName (name f)) (foldName key)) fields
  end.

(** [object] on a struct: the members in their order, each decoded into
    the field its key names; a key that names no field is skipped. *)
Fixpoint object {T : Type} (fields : list (field T))
    (members : list (string * Value)) (t : T) (saved : option error)
    : T * option error :=
  match members with
  | [] => (t, saved)
  | (key, v) :: rest =>
      match find_field fields key with
      | Some f => let '(t', saved') := store f v t saved in object fields rest t' saved'
      | None => object fields rest t saved
      end
  end.

(** A struct type with its Go name and fields. *)
Definition decode_struct {T : Type} (type : string) (fields : list (field T))
    : decoder T := fun v t saved =>
  match v with
  | JNull => (t, saved)
  | JObject members => object fields members t saved
  | _ => (t, saveError (UnmarshalTypeError (kind v) type) saved)
  end.

(** [Unmarshal data v]: [v] is what the pointer points to before the call;
    the result is what it points to after it, and the error returned. *)
Definition Unmarshal {T : Type} (dec : decoder T) (data : string) (v : T)
    : T * option error :=
  match parse data with
  | None => (v, Some SyntaxError)
  | Some j => dec j v None
  end.

End json.

(** ** jsii and the CDKTF packages

    The CDKTF calls of main.go build a tree of constructs: an app, a stack
    under it, and the provider, the resources and the outputs under the
    stack.  What the library does with the tree afterwards (the JSON it
    writes, the Terraform run) is outside this program; the tree is what
    the program hands over. *)

Module jsii.

(** A [*string] of the jsii runtime is either a string of the program or a
    token that stands for an attribute of a resource, to be filled in by
    Terraform. *)
Inductive str :=
| Str (s : string)
| Attr (resource id attribute : string).

(** [jsii.String]. *)
Definition String (s : string) : str := Str s.

End jsii.

Module provider.
Record AwsProviderConfig := { Region : jsii.str }.
End provider.

Module s3bucket.
Record S3BucketConfig := { Bucket : jsii.str; Tags : gmap string jsii.str }.
End s3bucket.

Module s3bucketversioning.
Record S3BucketVersioningVersioningConfiguration := { Status : jsii.str }.
Record S3BucketVersioningAConfig := {
  Bucket : jsii.str;
  VersioningConfiguration : S3BucketVersioningVersioningConfiguration
}.
End s3bucketversioning.

Module cdktf.

Record TerraformOutputConfig := { Value : jsii.str; Description : jsii.str }.

(** What can stand under a stack in this program. *)
Inductive Construct :=
| AwsProvider (id : jsii.str) (config : provider.AwsProviderConfig)
| S3Bucket (id : jsii.str) (config : s3bucket.S3BucketConfig)
| S3BucketVersioningA (id : jsii.str) (config : s3bucketversioning.S3BucketVersioningAConfig)
| TerraformOutput (id : jsii.str) (config : TerraformOutputConfig).

Record TerraformStack := { stackId : jsii.str; children : list Construct }.

Record App := { stacks : list TerraformStack; synthesized : bool }.

(** The objects of the library live on its side of the jsii bridge; the
    program holds references to them. *)
Definition heap : Type := list App.
Definition AppRef : Type := nat.
Definition StackRef : Type := AppRef * nat.

(** The handle [NewS3Bucket] returns: the bucket knows under which id it
    was declared. *)
Record S3BucketRef := { bucketScope : StackRef; bucketId : jsii.str }.

Definition NewApp (h : heap) : AppRef * heap :=
  (length h, (h ++ [{| stacks := []; synthesized := false |}])%list).

Definition NewTerraformStack (app : AppRef) (id : jsii.str) (h : heap)
    : StackRef * heap :=
  match h !! app with
  | Some a =>
      ((app, length (stacks a)),
       <[app := {| stacks := (stacks a ++ [{| stackId := id; children := [] |}])%list;
                   synthesized := synthesized a |}]> h)
  | None => ((app, 0), h)
  end.

(** A new construct is appended to the children of its scope. *)
Definition addChild (scope : StackRef) (c : Construct) (h : heap) : heap :=
  match h !! scope.1 with
  | Some a =>
      match stacks a !! scope.2 with
      | Some st =>
          <[scope.1 :=
              {| stacks := <[scope.2 := {| stackId := stackId st;
                                          children := (children st ++ [c])%list |}]>
                             (stacks a);
                 synthesized := synthesized a |}]> h
      | None => h
      end
  | None => h
  end.

(** [app.Synth()]: the tree is handed to the synthesizer. *)
Definition Synth (app : AppRef) (h : heap) : heap :=
  match h !! app with
  | Some a => <[app := {| stacks := stacks a; synthesized := true |}]> h
  | None => h
  end.

(** The text of an id given as a string of the program. *)
Definition id_text (id : jsii.str) : string :=
  match id with
  | jsii.Str s => s
  | jsii.Attr _ _ _ => ""
  end.

(** The getters of a bucket, as the generated bindings define them: a
    reference to the attribute of the resource of that type and id. *)
Definition Bucket (b : S3BucketRef) : jsii.str :=
  jsii.Attr "aws_s3_bucket" (id_text (bucketId b)) "bucket".

Definition Arn (b : S3BucketRef) : jsii.str :=
  jsii.Attr "aws_s3_bucket" (id_text (bucketId b)) "arn".

(** *** Reading a tree *)


(** Every construct declared under any stack of any app. *)
Definition declarations (h : heap) : list Construct :=
  concat (map children (concat (map stacks h))).

(** The ids of the stacks. *)
Definition stackIds (h : heap) : list jsii.str :=
  map stackId (concat (map stacks h)).


End cdktf.

(** ** The program: main.go *)

(** The errors that reach [main]: the one [os.ReadFile] returns (a
    [*fs.PathError] with its operation, path and cause) and the one
    [json.Unmarshal] returns. *)
Inductive error :=
| PathError (Op Path Err : string)
| JSONError (e : json.error).

(** [StorageConfig] and [Config], with the names of their [json] tags in
    the field tables below. *)
Record StorageConfig := {
  BucketName : string;
  EnableVersioning : bool
}.

Record Config := {
  Project : string;
  Environment : string;
  Region : string;
  Storage : StorageConfig
}.

(** The zero values of the two types: what [var config Config] holds. *)
Definition zeroStorageConfig : StorageConfig :=
  {| BucketName := ""; EnableVersioning := false |}.

Definition zeroConfig : Config :=
  {| Project := ""; Environment := ""; Region := ""; Storage := zeroStorageConfig |}.

Definition setBucketName (x : string) (s : StorageConfig) : StorageConfig :=
  {| BucketName := x; EnableVersioning := EnableVersioning s |}.
Definition setEnableVersioning (x : bool) (s : StorageConfig) : StorageConfig :=
  {| BucketName := BucketName s; EnableVersioning := x |}.
Definition setProject (x : string) (c : Config) : Config :=
  {| Project := x; Environment := Environment c; Region := Region c; Storage := Storage c |}.
Definition setEnvironment (x : string) (c : Config) : Config :=
  {| Project := Project c; Environment := x; Region := Region c; Storage := Storage c |}.
Definition setRegion (x : string) (c : Config) : Config :=
  {| Project := Project c; Environment := Environment c; Region := x; Storage := Storage c |}.
Definition setStorage (x : StorageConfig) (c : Config) : Config :=
  {| Project := Project c; Environment := Environment c; Region := Region c; Storage := x |}.

(** The fields of the two struct types as [encoding/json] finds them by
    reflection: the tag name and the type of each. *)
Definition StorageConfig_fields : list (json.field StorageConfig) :=
  [ json.Field "bucket_name" (json.at_field BucketName setBucketName json.decode_string);
    json.Field "enable_versioning"
      (json.at_field EnableVersioning setEnableVersioning json.decode_bool) ].

Definition decode_StorageConfig : json.decoder StorageConfig :=
  json.decode_struct "main.StorageConfig" StorageConfig_fields.

Definition Config_fields : list (json.field Config) :=
  [ json.Field "project" (json.at_field Project setProject json.decode_string);
    json.Field "environment" (json.at_field Environment setEnvironment json.decode_string);
    json.Field "region" (json.at_field Region setRegion json.decode_string);
    json.Field "storage" (json.at_field Storage setStorage decode_StorageConfig) ].

Definition decode_Config : json.decoder Config :=
  json.decode_struct "main.Config" Config_fields.

(** *** The process and its world

    [main] reads a file, prints, builds constructs and may leave through
    [os.Exit].  The world holds what these act on; a computation either
    returns or has exited with a status. *)

Record World := {
  files : string → error + string;
  stdout : string;
  cdk : cdktf.heap
}.

Inductive outcome (A : Type) :=
| Returned (a : A)
| Exited (code : Z).
Arguments Returned {A} a.
Arguments Exited {A} code.

Definition M (A : Type) : Type := World → outcome A * World.

Definition ret {A : Type} (a : A) : M A := fun w => (Returned a, w).

Definition bind {A B : Type} (m : M A) (k : A → M B) : M B := fun w =>
  match m w with
  | (Returned a, w') => k a w'
  | (Exited code, w') => (Exited code, w')
  end.

(** [x ← m; k] and [m ;; k] are stdpp's notations for [mbind]. *)
#[export] Instance M_ret : MRet M := @ret.
#[export] Instance M_bind : MBind M := fun A B k m => bind m k.

(** Lifting an action of the CDKTF library on its heap. *)
Definition onHeap {A : Type} (f : cdktf.heap → A * cdktf.heap) : M A := fun w =>
  let '(a, h) := f (cdk w) in
  (Returned a, {| files := files w; stdout := stdout w; cdk := h |}).

Definition write (text : string) : M unit := fun w =>
  (Returned tt, {| files := files w; stdout := stdout w ++ text; cdk := cdk w |}).

Section Program.

(** The [Error] method of the error values: their text belongs to the [os]
    and [encoding/json] packages. *)
Variable Error : error → string.

Definition Sprintf (format : string) (args : list (fmt.operand (error := error))) : string :=
  fmt.Sprintf Error format args.

Definition Printf (format : string) (args : list fmt.operand) : M unit :=
  write (Sprintf format args).

Definition Println (s : string) : M unit := write (s ++ nl).

(** [os.Exit]. *)
Definition Exit (code : Z) : M unit := fun w => (Exited code, w).

(** [os.ReadFile]. *)
Definition ReadFile (name : string) : M (error + string) := fun w =>
  (Returned (files w name), w).

Definition NewApp : M cdktf.AppRef := onHeap cdktf.NewApp.

Definition NewTerraformStack (app : cdktf.AppRef) (id : jsii.str) : M cdktf.StackRef :=
  onHeap (cdktf.NewTerraformStack app id).

Definition declare (scope : cdktf.StackRef) (c : cdktf.Construct) : M unit :=
  onHeap (fun h => (tt, cdktf.addChild scope c h)).

Definition NewAwsProvider (scope : cdktf.StackRef) (id : jsii.str)
    (config : provider.AwsProviderConfig) : M unit :=
  declare scope (cdktf.AwsProvider id config).

Definition NewS3Bucket (scope : cdktf.StackRef) (id : jsii.str)
    (config : s3bucket.S3BucketConfig) : M cdktf.S3BucketRef :=
  declare scope (cdktf.S3Bucket id config) ;;
  mret {| cdktf.bucketScope := scope; cdktf.bucketId := id |}.

Definition NewS3BucketVersioningA (scope : cdktf.StackRef) (id : jsii.str)
    (config : s3bucketversioning.S3BucketVersioningAConfig) : M unit :=
  declare scope (cdktf.S3BucketVersioningA id config).

Definition NewTerraformOutput (scope : cdktf.StackRef) (id : jsii.str)
    (config : cdktf.TerraformOutputConfig) : M unit :=
  declare scope (cdktf.TerraformOutput id config).

Definition Synth (app : cdktf.AppRef) : M unit :=
  onHeap (fun h => (tt, cdktf.Synth app h)).

(** The two names main.go derives with [fmt.Sprintf]. *)
Definition stackName (config : Config) : string :=
  Sprintf "%s-%s-stack"
    [fmt.VString (Project config); fmt.VString (Environment config)].

Definition fullBucketName (config : Config) : string :=
  Sprintf "%s-%s-%s"
    [fmt.VString (Project config); fmt.VString (Environment config);
     fmt.VString (BucketName (Storage config))].

(** [main] from step 3 on: what it does with the configuration once it is
    loaded. *)
Definition main_declare (config : Config) : M unit :=
  Printf ("✓ Config loaded for project: %s (environment: %s)" ++ nl ++ nl)
    [fmt.VString (Project config); fmt.VString (Environment config)] ;;
  Println "🏗️  Creating infrastructure from config..." ;;
  app ← NewApp;
  stack ← NewTerraformStack app (jsii.String (stackName config));
  NewAwsProvider stack (jsii.String "aws")
    {| provider.Region := jsii.String (Region config) |} ;;
  bucket ← NewS3Bucket stack (jsii.String "bucket")
    {| s3bucket.Bucket := jsii.String (fullBucketName config);
       s3bucket.Tags :=
         <["Project" := jsii.String (Project config)]>
           (<["Environment" := jsii.String (Environment config)]>
              (<["ManagedBy" := jsii.String "CDKTF-JSON-Platform"]> ∅)) |};
  (if EnableVersioning (Storage config) then
     NewS3BucketVersioningA stack (jsii.String "versioning")
       {| s3bucketversioning.Bucket := cdktf.Bucket bucket;
          s3bucketversioning.VersioningConfiguration :=
            {| s3bucketversioning.Status := jsii.String "Enabled" |} |} ;;
     Println "  ✓ S3 Bucket with versioning enabled"
   else
     Println "  ✓ S3 Bucket (no versioning)") ;;
  NewTerraformOutput stack (jsii.String "bucket_name")
    {| cdktf.Value := cdktf.Bucket bucket;
       cdktf.Description := jsii.String "The name of the created S3 bucket" |} ;;
  NewTerraformOutput stack (jsii.String "bucket_arn")
    {| cdktf.Value := cdktf.Arn bucket;
       cdktf.Description := jsii.String "The ARN of the created S3 bucket" |} ;;
  Println (nl ++ "📝 Synthesizing to Terraform JSON...") ;;
  Synth app ;;
  Println "✓ Done!" ;;
  Printf (nl ++ "📁 Generated Terraform in: cdktf.out/stacks/%s/" ++ nl)
    [fmt.VString (stackName config)] ;;
  Println (nl ++ "Next steps:") ;;
  Printf ("  1. Review: cat cdktf.out/stacks/%s/cdk.tf.json" ++ nl)
    [fmt.VString (stackName config)] ;;
  Println ("  2. Deploy: cd cdktf.out/stacks/" ++ stackName config
           ++ " && terraform init && terraform apply").

(** [main]: steps 1 and 2, then the rest. *)
Definition main : M unit :=
  Println "📄 Reading config.json..." ;;
  r ← ReadFile "config.json";
  match r with
  | inl err =>
      Printf ("Error reading config.json: %v" ++ nl) [fmt.VError err] ;;
      Exit 1
  | inr configFile =>
      let '(config, err) := json.Unmarshal decode_Config configFile zeroConfig in
      match err with
      | Some err =>
          Printf ("Error parsing config.json: %v" ++ nl) [fmt.VError (JSONError err)] ;;
          Exit 1
      | None => main_declare config
      end
  end.

(** The process: [main] started in a world with the given files, nothing
    printed and no construct; its exit status is 0 when [main] returns. *)
Definition start (fs : string → error + string) : World :=
  {| files := fs; stdout := ""; cdk := [] |}.

Definition run (fs : string → error + string) : Z * World :=
  match main (start fs) with
  | (Returned _, w) => (0%Z, w)
  | (Exited code, w) => (code, w)
  end.

End Program.

(** ** What a run leaves behind

    The readings of the final world that the properties speak of. *)

Definition bucketOf (c : cdktf.Construct) : option s3bucket.S3BucketConfig :=
  match c with cdktf.S3Bucket _ cfg => Some cfg | _ => None end.

Definition versioningOf (c : cdktf.Construct)
    : option s3bucketversioning.S3BucketVersioningAConfig :=
  match c with cdktf.S3BucketVersioningA _ cfg => Some cfg | _ => None end.



Definition declarations (w : World) : list cdktf.Construct := cdktf.declarations (cdk w).
Definition stackIdentities (w : World) : list jsii.str := cdktf.stackIds (cdk w).
Definition buckets (w : World) : list s3bucket.S3BucketConfig := omap bucketOf (declarations w).
Definition bucketNames (w : World) : list jsii.str := map s3bucket.Bucket (buckets w).
Definition versionings (w : World) : list s3bucketversioning.S3BucketVersioningAConfig :=
  omap versioningOf (declarations w).


(** The handoff has happened when some app has been synthesized. *)
Definition handedOff (w : World) : bool := existsb cdktf.synthesized (cdk w).

(** A file system that holds [config.json] with the given content and
    nothing else, and one that holds nothing. *)
Definition noFile (name : string) : error + string :=
  inl (PathError "open" name "no such file or directory").

Definition configFile (data : string) (name : string) : error + string :=
  if String.eqb name "config.json" then inr data else noFile name.

(** An [Error] method to run the examples with: that of [*fs.PathError],
    and for the errors of [encoding/json] the text without position. *)
Definition errorText (e : error) : string :=
  match e with
  | PathError Op Path Err => Op ++ " " ++ Path ++ ": " ++ Err
  | JSONError json.SyntaxError => "invalid JSON"
  | JSONError (json.UnmarshalTypeError value type) =>
      "json: cannot unmarshal " ++ value ++ " into Go value of type " ++ type
  end.

(** The example texts are written with ['] where JSON has the quotation
    mark; [quoted] puts the quotation marks in. *)
Fixpoint quoted (s : string) : string :=
  match s with
  | EmptyString => EmptyString
  | String c rest =>
      String (if Ascii.eqb c "'" then ascii_of_nat 34 else c) (quoted rest)
  end.

(** The configuration of the README, with the bucket name of the
    specification's example. *)
Definition exampleJSON : string :=
  quoted "{'project':'my-app','environment':'dev','region':'us-west-2','storage':{'bucket_name':'data','enable_versioning':true}}".

Definition exampleConfig : Config :=
  {| Project := "my-app"; Environment := "dev"; Region := "us-west-2";
     Storage := {| BucketName := "data"; EnableVersioning := true |} |}.



Definition flagFalseJSON : string :=
  quoted "{'project':'my-app','environment':'dev','region':'us-west-2','storage':{'bucket_name':'data','enable_versioning':false}}".



Definition emptyJSON : string := "{}".


(** ** What a document says

    The reading of a document that the properties of the parse step speak
    of, written from the document rather than from the decoder. *)

(** A key names a field when both fold to the same name. *)
Definition names (field key : string) : bool :=
  String.eqb (json.foldName field) (json.foldName key).

Definition members (j : json.Value) : list (string * json.Value) :=
  match j with
  | json.JObject ms => ms
  | _ => []
  end.

(** The strings, and the booleans, that the members of an object give for
    a field, in the order of the document. *)
Definition strings_for (field : string) (ms : list (string * json.Value)) : list string :=
  omap (fun kv => if names field kv.1
                  then match kv.2 with json.JString s => Some s | _ => None end
                  else None) ms.

Definition bools_for (field : string) (ms : list (string * json.Value)) : list bool :=
  omap (fun kv => if names field kv.1
                  then match kv.2 with json.JBool b => Some b | _ => None end
                  else None) ms.

(** The members of the objects given for [storage], one after the other. *)
Definition storage_members (ms : list (string * json.Value)) : list (string * json.Value) :=
  concat (map (fun kv => if names "storage" kv.1 then members kv.2 else []) ms).

(** A value fits a Go string when it is a string or [null], a Go bool when
    it is a boolean or [null], a struct when it is [null] or an object
    whose members fit the fields they name.  Nothing is asked of a field
    that no member names. *)
Definition fits_string (v : json.Value) : bool :=
  match v with
  | json.JNull | json.JString _ => true
  | _ => false
  end.

Definition fits_bool (v : json.Value) : bool :=
  match v with
  | json.JNull | json.JBool _ => true
  | _ => false
  end.

Definition fits_StorageConfig_member (kv : string * json.Value) : bool :=
  if names "bucket_name" kv.1 then fits_string kv.2
  else if names "enable_versioning" kv.1 then fits_bool kv.2
  else true.

Definition fits_StorageConfig (v : json.Value) : bool :=
  match v with
  | json.JNull => true
  | json.JObject ms => forallb fits_StorageConfig_member ms
  | _ => false
  end.

Definition fits_Config_member (kv : string * json.Value) : bool :=
  if names "project" kv.1 then fits_string kv.2
  else if names "environment" kv.1 then fits_string kv.2
  else if names "region" kv.1 then fits_string kv.2
  else if names "storage" kv.1 then fits_StorageConfig kv.2
  else true.

Definition fits_Config (v : json.Value) : bool :=
  match v with
  | json.JNull => true
  | json.JObject ms => forallb fits_Config_member ms
  | _ => false
  end.

(** A text is accepted when it is JSON and the value fits [Config]. *)
Definition accepted (data : string) : bool :=
  match json.parse data with
  | Some j => fits_Config j
  | None => false
  end.




(** ** What a run is expected to give *)

(** [loads fs config]: the program, started on [fs], reads [config.json]
    and decodes it without error into [config].  These are the valid
    configurations. *)
Definition loads (fs : string → error + string) (config : Config) : Prop :=
  ∃ data, fs "config.json" = inr data
          ∧ json.Unmarshal decode_Config data zeroConfig = (config, None).

(** The children of the stack that [main] declares, in the order of the
    calls. *)
Definition stackChildren (Error : error → string) (config : Config)
    : list cdktf.Construct :=
  [ cdktf.AwsProvider (jsii.Str "aws") {| provider.Region := jsii.Str (Region config) |};
    cdktf.S3Bucket (jsii.Str "bucket")
      {| s3bucket.Bucket := jsii.Str (fullBucketName Error config);
         s3bucket.Tags :=
           <["Project" := jsii.Str (Project config)]>
             (<["Environment" := jsii.Str (Environment config)]>
                (<["ManagedBy" := jsii.Str "CDKTF-JSON-Platform"]> ∅)) |} ]
  ++ (if EnableVersioning (Storage config)
      then [ cdktf.S3BucketVersioningA (jsii.Str "versioning")
               {| s3bucketversioning.Bucket := jsii.Attr "aws_s3_bucket" "bucket" "bucket";
                  s3bucketversioning.VersioningConfiguration :=
                    {| s3bucketversioning.Status := jsii.Str "Enabled" |} |} ]
      else [])
  ++ [ cdktf.TerraformOutput (jsii.Str "bucket_name")
         {| cdktf.Value := jsii.Attr "aws_s3_bucket" "bucket" "bucket";
            cdktf.Description := jsii.Str "The name of the created S3 bucket" |};
       cdktf.TerraformOutput (jsii.Str "bucket_arn")
         {| cdktf.Value := jsii.Attr "aws_s3_bucket" "bucket" "arn";
            cdktf.Description := jsii.Str "The ARN of the created S3 bucket" |} ].

(** ** Further readings of a run and of a document *)


(** The strings of a construct that may refer to another one: the bucket
    of a versioning resource and the value of an output. *)
Definition referencesOf (c : cdktf.Construct) : list jsii.str :=
  match c with
  | cdktf.S3BucketVersioningA _ cfg => [s3bucketversioning.Bucket cfg]
  | cdktf.TerraformOutput _ cfg => [cdktf.Value cfg]
  | _ => []
  end.





(** Two documents that differ in one place: some members [m] of the
    top-level object are replaced by [m'], related by [Rtop], or some
    members of an object given for a top-level key are, related by
    [Rinner]. *)
Inductive edited (Rtop Rinner : relation (list (string * json.Value)))
    : json.Value → json.Value → Prop :=
| edited_top (pre post m m' : list (string * json.Value)) :
    Rtop m m' →
    edited Rtop Rinner (json.JObject (pre ++ m ++ post)%list)
                       (json.JObject (pre ++ m' ++ post)%list)
| edited_inner (pre post sm1 sm2 m m' : list (string * json.Value)) (ks : string) :
    Rinner m m' →
    edited Rtop Rinner
      (json.JObject (pre ++ (ks, json.JObject (sm1 ++ m ++ sm2)) :: post)%list)
      (json.JObject (pre ++ (ks, json.JObject (sm1 ++ m' ++ sm2)) :: post)%list).

(** One member, its key respelt with the same folded name. *)
Definition respelt (m m' : list (string * json.Value)) : Prop :=
  ∃ k k' v, m = [(k, v)] ∧ m' = [(k', v)] ∧ json.foldName k = json.foldName k'.

(** One member taken out, whose key names no field of [Config], or no
    field of [StorageConfig]. *)
Definition names_no_Config_field (k : string) : bool :=
  negb (names "project" k) && negb (names "environment" k)
  && negb (names "region" k) && negb (names "storage" k).

Definition names_no_StorageConfig_field (k : string) : bool :=
  negb (names "bucket_name" k) && negb (names "enable_versioning" k).

Definition without_unknown (unknown : string → bool)
    (m m' : list (string * json.Value)) : Prop :=
  ∃ k v, m = [(k, v)] ∧ m' = [] ∧ unknown k = true.

(** One member taken out, whose value is [null]. *)
Definition without_null (m m' : list (string * json.Value)) : Prop :=
  ∃ k, m = [(k, json.JNull)] ∧ m' = [].

(** The error of a document, read off the document: that of the first
    value, in the order of the text, whose kind does not fit the field it
    is given for. *)
Definition kind_error (fits : bool) (v : json.Value) (type : string) : option json.error :=
  if fits then None else Some (json.UnmarshalTypeError (json.kind v) type).

Definition first_error {A : Type} (f : A → option json.error) (l : list A)
    : option json.error :=
  head (omap f l).

Definition StorageConfig_member_error (kv : string * json.Value) : option json.error :=
  if names "bucket_name" kv.1 then kind_error (fits_string kv.2) kv.2 "string"
  else if names "enable_versioning" kv.1 then kind_error (fits_bool kv.2) kv.2 "bool"
  else None.

Definition StorageConfig_error (v : json.Value) : option json.error :=
  match v with
  | json.JNull => None
  | json.JObject ms => first_error StorageConfig_member_error ms
  | _ => Some (json.UnmarshalTypeError (json.kind v) "main.StorageConfig")
  end.

Definition Config_member_error (kv : string * json.Value) : option json.error :=
  if names "project" kv.1 then kind_error (fits_string kv.2) kv.2 "string"
  else if names "environment" kv.1 then kind_error (fits_string kv.2) kv.2 "string"
  else if names "region" kv.1 then kind_error (fits_string kv.2) kv.2 "string"
  else if names "storage" kv.1 then StorageConfig_error kv.2
  else None.


(** Two neighbouring members in the other order; their keys fold to
    different names and at most one of them is in error. *)
Definition swapped (member_error : string * json.Value → option json.error)
    (m m' : list (string * json.Value)) : Prop :=
  ∃ a b, m = [a; b] ∧ m' = [b; a]
         ∧ json.foldName a.1 ≠ json.foldName b.1
         ∧ (member_error a = None ∨ member_error b = None).

(** Two runs end alike: the same exit status, the same output, the same
    constructs. *)
Definition alike (r1 r2 : Z * World) : Prop :=
  r1.1 = r2.1 ∧ stdout r1.2 = stdout r2.2 ∧ cdk r1.2 = cdk r2.2.

(** More example texts: the example with another bucket in another region;
    with keys in other spellings, a member that names no field and a
    [null]; and with a value of the wrong kind. *)
Definition otherBucketJSON : string :=
  quoted "{'project':'my-app','environment':'dev','region':'eu-central-1','storage':{'bucket_name':'logs','enable_versioning':true}}".

Definition otherBucketConfig : Config :=
  {| Project := "my-app"; Environment := "dev"; Region := "eu-central-1";
     Storage := {| BucketName := "logs"; EnableVersioning := true |} |}.


(** The members of the example after [project]; the example with that key
    in capitals; with a member that names no field in the storage object;
    with a [null] given for the region after the region. *)
Definition exampleStorage : list (string * json.Value) :=
  [ ("bucket_name", json.JString "data"); ("enable_versioning", json.JBool true) ].

Definition exampleTail : list (string * json.Value) :=
  [ ("environment", json.JString "dev"); ("region", json.JString "us-west-2");
    ("storage", json.JObject exampleStorage) ].

Definition capitalsJSON : string :=
  quoted "{'PROJECT':'my-app','environment':'dev','region':'us-west-2','storage':{'bucket_name':'data','enable_versioning':true}}".

Definition lifecycleJSON : string :=
  quoted "{'project':'my-app','environment':'dev','region':'us-west-2','storage':{'bucket_name':'data','lifecycle':[30,'days'],'enable_versioning':true}}".

Definition nullRegionJSON : string :=
  quoted "{'project':'my-app','environment':'dev','region':'us-west-2','region':null,'storage':{'bucket_name':'data','enable_versioning':true}}".

(** The example with its first two members in the other order. *)
Definition reorderedJSON : string :=
  quoted "{'environment':'dev','project':'my-app','region':'us-west-2','storage':{'bucket_name':'data','enable_versioning':true}}".



Definition shiftedJSON : string :=
  quoted "{'project':'my','environment':'app-dev','region':'us-west-2','storage':{'bucket_name':'data','enable_versioning':true}}".

Definition shiftedConfig : Config :=
  {| Project := "my"; Environment := "app-dev"; Region := "us-west-2";
     Storage := {| BucketName := "data"; EnableVersioning := true |} |}.

(** ** The library models on examples

    What [encoding/json] does on some texts, as a check of the model. *)

Example parse_nested :
  json.parse (quoted "{'a': 1, 'a': [true, -0.5E+10, {'b': null}], 'c': 'x\tyé'}")
  = Some (json.JObject
            [("a", json.JNumber "1");
             ("a", json.JArray [json.JBool true; json.JNumber "-0.5E+10";
                                json.JObject [("b", json.JNull)]]);
             ("c", json.JString
                     (String "x" (String (ascii_of_nat 9) (String "y"
                        (String (ascii_of_nat 195) (String (ascii_of_nat 169) EmptyString))))))]).
Proof. vm_compute. reflexivity. Qed.

Example parse_rejects :
  map json.parse
    [ EmptyString; " "; quoted "{'a':1,}"; "[1,]"; "[1 2]"; "01"; "1."; "-"; "tru";
      "nulll"; quoted "'abc"; quoted "'\x'"; quoted "'\u12g4'"; "{}x";
      quoted "{'a'}"; "{1:2}"; "[]]" ]
  = repeat None 17.
Proof. vm_compute. reflexivity. Qed.

(** A surrogate pair is one rune; a lone surrogate is U+FFFD. *)
Example parse_surrogates :
  json.parse (quoted "['\ud83d\ude00', '\ud83dA']")
  = Some (json.JArray
            [ json.JString (json.EncodeRune 128512 EmptyString);
              json.JString (json.EncodeRune 65533 "A") ]).
Proof. vm_compute. reflexivity. Qed.

(** Keys are matched exactly or folded; [null] stores nothing; a later
    member overwrites an earlier one and a later storage object adds to an
    earlier one; the first value of a wrong kind is the error returned, and
    the decoding goes on after it. *)
Example Unmarshal_mixed :
  json.Unmarshal decode_Config
    (quoted "{'PROJECT':'a','project':null,'Environment':'e','storage':{'bucket_name':'x'},'storage':{'enable_versioning':true},'region':7,'storage':[],'environment':'f'}")
    zeroConfig
  = ({| Project := "a"; Environment := "f"; Region := "";
        Storage := {| BucketName := "x"; EnableVersioning := true |} |},
     Some (json.UnmarshalTypeError "number" "string")).
Proof. vm_compute. reflexivity. Qed.

Example Unmarshal_null : json.Unmarshal decode_Config "null" zeroConfig = (zeroConfig, None).
Proof. vm_compute. reflexivity. Qed.

Example Unmarshal_array :
  json.Unmarshal decode_Config "[]" zeroConfig
  = (zeroConfig, Some (json.UnmarshalTypeError "array" "main.Config")).
Proof. vm_compute. reflexivity. Qed.

(** The long s (U+017F) folds to [S]. *)
Example names_folded :
  names "storage" "STORAGE" = true
  ∧ names "storage" (String (ascii_of_nat 197) (String (ascii_of_nat 191) "torage")) = true
  ∧ names "storage" "storag" = false
  ∧ names "project" "projects" = false.
Proof. vm_compute. repeat split; reflexivity. Qed.

(** The run on the example of the specification. *)
Example run_example :
  (run errorText (configFile exampleJSON)).1 = 0%Z
  ∧ stackIdentities (run errorText (configFile exampleJSON)).2
    = [ jsii.Str "my-app-dev-stack" ]
  ∧ bucketNames (run errorText (configFile exampleJSON)).2 = [ jsii.Str "my-app-dev-data" ]
  ∧ length (versionings (run errorText (configFile exampleJSON)).2) = 1
  ∧ length (versionings (run errorText (configFile flagFalseJSON)).2) = 0
  ∧ bucketNames (run errorText (configFile flagFalseJSON)).2 = [ jsii.Str "my-app-dev-data" ]
  ∧ stackIdentities (run errorText (configFile flagFalseJSON)).2
    = [ jsii.Str "my-app-dev-stack" ].
Proof. vm_compute. repeat split; reflexivity. Qed.

(** *** The decoder, member by member *)

Lemma names_exact (field : string) : names field field = true.
Proof. apply String.eqb_refl. Qed.

(** Two fields with different folded names are not named by one key. *)
Lemma names_apart (f1 f2 key : string) :
  json.foldName f1 ≠ json.foldName f2 → names f1 key = true → names f2 key = false.
Proof.
  unfold names. intros Hne H1%String.eqb_eq.
  apply String.eqb_neq. congruence.
Qed.

Lemma find_field_StorageConfig (key : string) :
  json.find_field StorageConfig_fields key
  = if names "bucket_name" key
    then Some (json.Field "bucket_name"
                 (json.at_field BucketName setBucketName json.decode_string))
    else if names "enable_versioning" key
    then Some (json.Field "enable_versioning"
                 (json.at_field EnableVersioning setEnableVersioning json.decode_bool))
    else None.
Proof.
  unfold json.find_field, StorageConfig_fields. cbn [find json.name].
  destruct (String.eqb "bucket_name" key) eqn:E1.
  { apply String.eqb_eq in E1. subst key. vm_compute. reflexivity. }
  destruct (String.eqb "enable_versioning" key) eqn:E2.
  { apply String.eqb_eq in E2. subst key. vm_compute. reflexivity. }
  unfold names. reflexivity.
Qed.

Lemma find_field_Config (key : string) :
  json.find_field Config_fields key
  = if names "project" key
    then Some (json.Field "project" (json.at_field Project setProject json.decode_string))
    else if names "environment" key
    then Some (json.Field "environment"
                 (json.at_field Environment setEnvironment json.decode_string))
    else if names "region" key
    then Some (json.Field "region" (json.at_field Region setRegion json.decode_string))
    else if names "storage" key
    then Some (json.Field "storage" (json.at_field Storage setStorage decode_StorageConfig))
    else None.
Proof.
  unfold json.find_field, Config_fields. cbn [find json.name].
  destruct (String.eqb "project" key) eqn:E1.
  { apply String.eqb_eq in E1. subst key. vm_compute. reflexivity. }
  destruct (String.eqb "environment" key) eqn:E2.
  { apply String.eqb_eq in E2. subst key. vm_compute. reflexivity. }
  destruct (String.eqb "region" key) eqn:E3.
  { apply String.eqb_eq in E3. subst key. vm_compute. reflexivity. }
  destruct (String.eqb "storage" key) eqn:E4.
  { apply String.eqb_eq in E4. subst key. vm_compute. reflexivity. }
  unfold names. reflexivity.
Qed.

(** Decoding the members of two lists one after the other is decoding
    their concatenation. *)
Lemma object_app {T : Type} (fields : list (json.field T))
    (ms1 ms2 : list (string * json.Value)) (t : T) (saved : option json.error) :
  json.object fields (ms1 ++ ms2)%list t saved
  = json.object fields ms2 (json.object fields ms1 t saved).1
      (json.object fields ms1 t saved).2.
Proof.
  revert t saved. induction ms1 as [| [k v] ms1 IH]; intros t saved; [reflexivity |].
  cbn [app json.object]. destruct (json.find_field fields k) as [f |]; [| apply IH].
  destruct (json.store f v t saved) as [t' saved']. apply IH.
Qed.

(** *** When the decoder reports an error *)

Lemma saveError_Some (e : json.error) (saved : option json.error) :
  json.saveError e saved ≠ None.
Proof. now destruct saved. Qed.

Lemma decode_string_ok (v : json.Value) (s : string) (saved : option json.error) :
  (json.decode_string v s saved).2 = None ↔ saved = None ∧ fits_string v = true.
Proof.
  destruct v; cbn; try (split; [intros H; now apply saveError_Some in H | now intros []]);
    (split; [now intros -> | now intros []]).
Qed.

Lemma decode_bool_ok (v : json.Value) (b : bool) (saved : option json.error) :
  (json.decode_bool v b saved).2 = None ↔ saved = None ∧ fits_bool v = true.
Proof.
  destruct v; cbn; try (split; [intros H; now apply saveError_Some in H | now intros []]);
    (split; [now intros -> | now intros []]).
Qed.

(** The error a field's decoder leaves is that of the decoder of its type. *)
Lemma at_field_error {T U : Type} (get : T → U) (set : U → T → T) (dec : json.decoder U)
    (v : json.Value) (t : T) (saved : option json.error) :
  (json.at_field get set dec v t saved).2 = (dec v (get t) saved).2.
Proof. unfold json.at_field. now destruct (dec v (get t) saved). Qed.

Lemma at_field_value {T U : Type} (get : T → U) (set : U → T → T) (dec : json.decoder U)
    (v : json.Value) (t : T) (saved : option json.error) :
  (json.at_field get set dec v t saved).1 = set (dec v (get t) saved).1 t.
Proof. unfold json.at_field. now destruct (dec v (get t) saved). Qed.

(** One member of a [StorageConfig] object, and one of a [Config] object. *)
Lemma object_StorageConfig_cons (k : string) (v : json.Value)
    (ms : list (string * json.Value)) (s : StorageConfig) (saved : option json.error) :
  json.object StorageConfig_fields ((k, v) :: ms) s saved
  = if names "bucket_name" k
    then json.object StorageConfig_fields ms
           (setBucketName (json.decode_string v (BucketName s) saved).1 s)
           (json.decode_string v (BucketName s) saved).2
    else if names "enable_versioning" k
    then json.object StorageConfig_fields ms
           (setEnableVersioning (json.decode_bool v (EnableVersioning s) saved).1 s)
           (json.decode_bool v (EnableVersioning s) saved).2
    else json.object StorageConfig_fields ms s saved.
Proof.
  cbn [json.object]. rewrite find_field_StorageConfig.
  destruct (names "bucket_name" k).
  { cbn [json.store]. unfold json.at_field.
    now destruct (json.decode_string v (BucketName s) saved). }
  destruct (names "enable_versioning" k); [| reflexivity].
  cbn [json.store]. unfold json.at_field.
  now destruct (json.decode_bool v (EnableVersioning s) saved).
Qed.

Lemma object_Config_cons (k : string) (v : json.Value)
    (ms : list (string * json.Value)) (c : Config) (saved : option json.error) :
  json.object Config_fields ((k, v) :: ms) c saved
  = if names "project" k
    then json.object Config_fields ms
           (setProject (json.decode_string v (Project c) saved).1 c)
           (json.decode_string v (Project c) saved).2
    else if names "environment" k
    then json.object Config_fields ms
           (setEnvironment (json.decode_string v (Environment c) saved).1 c)
           (json.decode_string v (Environment c) saved).2
    else if names "region" k
    then json.object Config_fields ms
           (setRegion (json.decode_string v (Region c) saved).1 c)
           (json.decode_string v (Region c) saved).2
    else if names "storage" k
    then json.object Config_fields ms
           (setStorage (decode_StorageConfig v (Storage c) saved).1 c)
           (decode_StorageConfig v (Storage c) saved).2
    else json.object Config_fields ms c saved.
Proof.
  cbn [json.object]. rewrite find_field_Config.
  destruct (names "project" k).
  { cbn [json.store]. unfold json.at_field.
    now destruct (json.decode_string v (Project c) saved). }
  destruct (names "environment" k).
  { cbn [json.store]. unfold json.at_field.
    now destruct (json.decode_string v (Environment c) saved). }
  destruct (names "region" k).
  { cbn [json.store]. unfold json.at_field.
    now destruct (json.decode_string v (Region c) saved). }
  destruct (names "storage" k); [| reflexivity].
  cbn [json.store]. unfold json.at_field.
  now destruct (decode_StorageConfig v (Storage c) saved).
Qed.

Lemma object_StorageConfig_ok (ms : list (string * json.Value)) (s : StorageConfig)
    (saved : option json.error) :
  (json.object StorageConfig_fields ms s saved).2 = None
  ↔ saved = None ∧ forallb fits_StorageConfig_member ms = true.
Proof.
  revert s saved. induction ms as [| [k v] ms IH]; intros s saved.
  { cbn. tauto. }
  rewrite object_StorageConfig_cons. cbn [forallb].
  unfold fits_StorageConfig_member at 1. cbn [fst snd].
  rewrite andb_true_iff.
  destruct (names "bucket_name" k).
  { rewrite IH, decode_string_ok. tauto. }
  destruct (names "enable_versioning" k).
  { rewrite IH, decode_bool_ok. tauto. }
  rewrite IH. tauto.
Qed.

Lemma decode_StorageConfig_ok (v : json.Value) (s : StorageConfig)
    (saved : option json.error) :
  (decode_StorageConfig v s saved).2 = None ↔ saved = None ∧ fits_StorageConfig v = true.
Proof.
  destruct v; cbn [decode_StorageConfig json.decode_struct fits_StorageConfig snd];
    try (split; [intros H; now apply saveError_Some in H | now intros []]).
  - tauto.
  - apply object_StorageConfig_ok.
Qed.

Lemma object_Config_ok (ms : list (string * json.Value)) (c : Config)
    (saved : option json.error) :
  (json.object Config_fields ms c saved).2 = None
  ↔ saved = None ∧ forallb fits_Config_member ms = true.
Proof.
  revert c saved. induction ms as [| [k v] ms IH]; intros c saved.
  { cbn. tauto. }
  rewrite object_Config_cons. cbn [forallb].
  unfold fits_Config_member at 1. cbn [fst snd].
  rewrite andb_true_iff.
  destruct (names "project" k).
  { rewrite IH, decode_string_ok. tauto. }
  destruct (names "environment" k).
  { rewrite IH, decode_string_ok. tauto. }
  destruct (names "region" k).
  { rewrite IH, decode_string_ok. tauto. }
  destruct (names "storage" k).
  { rewrite IH, decode_StorageConfig_ok. tauto. }
  rewrite IH. tauto.
Qed.

Lemma decode_Config_ok (v : json.Value) (c : Config) (saved : option json.error) :
  (decode_Config v c saved).2 = None ↔ saved = None ∧ fits_Config v = true.
Proof.
  destruct v; cbn [decode_Config json.decode_struct fits_Config snd];
    try (split; [intros H; now apply saveError_Some in H | now intros []]).
  - tauto.
  - apply object_Config_ok.
Qed.

(** [Unmarshal] returns no error exactly on the accepted texts. *)
Lemma Unmarshal_ok (data : string) :
  (json.Unmarshal decode_Config data zeroConfig).2 = None ↔ accepted data = true.
Proof.
  unfold json.Unmarshal, accepted. destruct (json.parse data) as [j |].
  - rewrite decode_Config_ok. tauto.
  - cbn. split; discriminate.
Qed.

(** *** What the decoder stores *)

Lemma default_last_cons {A : Type} (d x : A) (l : list A) :
  default d (last (x :: l)) = default x (last l).
Proof. rewrite last_cons. now destruct (last l). Qed.

Lemma strings_for_cons (field k : string) (v : json.Value)
    (ms : list (string * json.Value)) :
  strings_for field ((k, v) :: ms)
  = ((if names field k then match v with json.JString s => [s] | _ => [] end else [])
     ++ strings_for field ms)%list.
Proof.
  unfold strings_for. cbn [omap list_omap fst snd].
  destruct (names field k); [| reflexivity]. now destruct v.
Qed.

Lemma bools_for_cons (field k : string) (v : json.Value)
    (ms : list (string * json.Value)) :
  bools_for field ((k, v) :: ms)
  = ((if names field k then match v with json.JBool b => [b] | _ => [] end else [])
     ++ bools_for field ms)%list.
Proof.
  unfold bools_for. cbn [omap list_omap fst snd].
  destruct (names field k); [| reflexivity]. now destruct v.
Qed.

(** A Go string holds, after a value, the string the value is, and what it
    held before when the value is no string. *)
Lemma decode_string_value (v : json.Value) (s : string) (saved : option json.error)
    (l : list string) :
  default (json.decode_string v s saved).1 (last l)
  = default s (last ((match v with json.JString x => [x] | _ => [] end) ++ l)%list).
Proof.
  destruct v; try reflexivity. cbn [app json.decode_string fst].
  now rewrite default_last_cons.
Qed.

Lemma decode_bool_value (v : json.Value) (b : bool) (saved : option json.error)
    (l : list bool) :
  default (json.decode_bool v b saved).1 (last l)
  = default b (last ((match v with json.JBool x => [x] | _ => [] end) ++ l)%list).
Proof.
  destruct v; try reflexivity. cbn [app json.decode_bool fst].
  now rewrite default_last_cons.
Qed.

Ltac names_apart_from H :=
  match type of H with
  | names ?f ?k = true =>
      repeat match goal with
        | |- context [names ?g k] =>
            lazymatch g with
            | f => fail
            | _ => rewrite (names_apart f g k (ltac:(vm_compute; discriminate)) H)
            end
        end
  end.

Lemma object_StorageConfig_values (ms : list (string * json.Value)) (s : StorageConfig)
    (saved : option json.error) :
  BucketName (json.object StorageConfig_fields ms s saved).1
  = default (BucketName s) (last (strings_for "bucket_name" ms))
  ∧ EnableVersioning (json.object StorageConfig_fields ms s saved).1
    = default (EnableVersioning s) (last (bools_for "enable_versioning" ms)).
Proof.
  revert s saved. induction ms as [| [k v] ms IH]; intros s saved; [now split |].
  rewrite object_StorageConfig_cons, strings_for_cons, bools_for_cons.
  destruct (names "bucket_name" k) eqn:E1.
  { names_apart_from E1.
    destruct (IH (setBucketName (json.decode_string v (BucketName s) saved).1 s)
                 (json.decode_string v (BucketName s) saved).2) as [-> ->].
    cbn [setBucketName BucketName EnableVersioning app].
    split; [apply decode_string_value | reflexivity]. }
  destruct (names "enable_versioning" k) eqn:E2.
  { destruct (IH (setEnableVersioning (json.decode_bool v (EnableVersioning s) saved).1 s)
                 (json.decode_bool v (EnableVersioning s) saved).2) as [-> ->].
    cbn [setEnableVersioning BucketName EnableVersioning app].
    split; [reflexivity | apply decode_bool_value]. }
  apply IH.
Qed.


Lemma default_last_app {A : Type} (d : A) (l1 l2 : list A) :
  default d (last (l1 ++ l2)%list) = default (default d (last l1)) (last l2).
Proof.
  rewrite last_app. now destruct (last l2).
Qed.

Lemma strings_for_app (field : string) (ms1 ms2 : list (string * json.Value)) :
  strings_for field (ms1 ++ ms2)%list
  = (strings_for field ms1 ++ strings_for field ms2)%list.
Proof. apply omap_app. Qed.

Lemma bools_for_app (field : string) (ms1 ms2 : list (string * json.Value)) :
  bools_for field (ms1 ++ ms2)%list = (bools_for field ms1 ++ bools_for field ms2)%list.
Proof. apply omap_app. Qed.

Lemma storage_members_cons (k : string) (v : json.Value) (ms : list (string * json.Value)) :
  storage_members ((k, v) :: ms)
  = ((if names "storage" k then members v else []) ++ storage_members ms)%list.
Proof. reflexivity. Qed.

Lemma decode_StorageConfig_values (v : json.Value) (s : StorageConfig)
    (saved : option json.error) :
  BucketName (decode_StorageConfig v s saved).1
  = default (BucketName s) (last (strings_for "bucket_name" (members v)))
  ∧ EnableVersioning (decode_StorageConfig v s saved).1
    = default (EnableVersioning s) (last (bools_for "enable_versioning" (members v))).
Proof.
  destruct v; try (now split). apply object_StorageConfig_values.
Qed.

(** What [Config] holds after the members of an object: in each string
    field the last string given for it, in [enable_versioning] the last
    boolean, and what the field held before when none is given. *)
Lemma object_Config_values (ms : list (string * json.Value)) (c : Config)
    (saved : option json.error) :
  let r := (json.object Config_fields ms c saved).1 in
  Project r = default (Project c) (last (strings_for "project" ms))
  ∧ Environment r = default (Environment c) (last (strings_for "environment" ms))
  ∧ Region r = default (Region c) (last (strings_for "region" ms))
  ∧ BucketName (Storage r)
    = default (BucketName (Storage c))
        (last (strings_for "bucket_name" (storage_members ms)))
  ∧ EnableVersioning (Storage r)
    = default (EnableVersioning (Storage c))
        (last (bools_for "enable_versioning" (storage_members ms))).
Proof.
  cbv zeta. revert c saved.
  induction ms as [| [k v] ms IH]; intros c saved; [now repeat split |].
  rewrite object_Config_cons, !strings_for_cons, storage_members_cons.
  rewrite strings_for_app, bools_for_app, !default_last_app.
  destruct (names "project" k) eqn:E1.
  { names_apart_from E1.
    destruct (IH (setProject (json.decode_string v (Project c) saved).1 c)
                 (json.decode_string v (Project c) saved).2) as (-> & -> & -> & -> & ->).
    cbn [setProject Project Environment Region Storage app strings_for bools_for
         omap list_omap last default].
    repeat split. now rewrite decode_string_value, default_last_app. }
  destruct (names "environment" k) eqn:E2.
  { names_apart_from E2.
    destruct (IH (setEnvironment (json.decode_string v (Environment c) saved).1 c)
                 (json.decode_string v (Environment c) saved).2) as (-> & -> & -> & -> & ->).
    cbn [setEnvironment Project Environment Region Storage app strings_for bools_for
         omap list_omap last default].
    repeat split. now rewrite decode_string_value, default_last_app. }
  destruct (names "region" k) eqn:E3.
  { names_apart_from E3.
    destruct (IH (setRegion (json.decode_string v (Region c) saved).1 c)
                 (json.decode_string v (Region c) saved).2) as (-> & -> & -> & -> & ->).
    cbn [setRegion Project Environment Region Storage app strings_for bools_for
         omap list_omap last default].
    repeat split. now rewrite decode_string_value, default_last_app. }
  destruct (names "storage" k) eqn:E4.
  { destruct (IH (setStorage (decode_StorageConfig v (Storage c) saved).1 c)
                 (decode_StorageConfig v (Storage c) saved).2) as (-> & -> & -> & -> & ->).
    destruct (decode_StorageConfig_values v (Storage c) saved) as [Hb Hv].
    cbn [setStorage Project Environment Region Storage app last default].
    now rewrite Hb, Hv. }
  destruct (IH c saved) as (-> & -> & -> & -> & ->).
  cbn [app strings_for bools_for omap list_omap last default]. now repeat split.
Qed.


(** What [Unmarshal] leaves in a zero [Config], whatever error it
    returns. *)
Lemma Unmarshal_values (data : string) (j : json.Value) :
  json.parse data = Some j →
  let c := (json.Unmarshal decode_Config data zeroConfig).1 in
  Project c = default "" (last (strings_for "project" (members j)))
  ∧ Environment c = default "" (last (strings_for "environment" (members j)))
  ∧ Region c = default "" (last (strings_for "region" (members j)))
  ∧ BucketName (Storage c)
    = default "" (last (strings_for "bucket_name" (storage_members (members j))))
  ∧ EnableVersioning (Storage c)
    = default false (last (bools_for "enable_versioning" (storage_members (members j)))).
Proof.
  intros Hj. unfold json.Unmarshal. rewrite Hj.
  destruct j as [| b | lit | x | elems | ms]; try (now repeat split).
  apply (object_Config_values ms zeroConfig None).
Qed.






Lemma Config_eq (c1 c2 : Config) :
  Project c1 = Project c2 →
  Environment c1 = Environment c2 →
  Region c1 = Region c2 →
  BucketName (Storage c1) = BucketName (Storage c2) →
  EnableVersioning (Storage c1) = EnableVersioning (Storage c2) →
  c1 = c2.
Proof.
  destruct c1 as [p1 e1 r1 [b1 v1]], c2 as [p2 e2 r2 [b2 v2]]. cbn. congruence.
Qed.





(** Writing [enable_versioning: false] into a storage object of a document
    in which the field is absent: what fits still fits, and the same
    configuration is decoded. *)
Section ExplicitFalse.

Variables (pre post sm1 sm2 : list (string * json.Value)) (ks kev : string).
Hypothesis Hks : names "storage" ks = true.
Hypothesis Hkev : names "enable_versioning" kev = true.

#[local] Abbreviation without := (pre ++ (ks, json.JObject (sm1 ++ sm2)) :: post)%list.
#[local] Abbreviation explicit :=
  (pre ++ (ks, json.JObject (sm1 ++ (kev, json.JBool false) :: sm2)) :: post)%list.






End ExplicitFalse.

(** ** Properties of the run *)

Section Properties.

Variable Error : error → string.

Lemma append_empty_r (s : string) : s ++ "" = s.
Proof.
  induction s as [|c s IH]; [reflexivity |].
  change (String c (s ++ "") = String c s). now f_equal.
Qed.

Lemma Sprintf_stackName (config : Config) :
  stackName Error config = Project config ++ "-" ++ Environment config ++ "-stack".
Proof. reflexivity. Qed.

Lemma Sprintf_fullBucketName (config : Config) :
  fullBucketName Error config
  = Project config ++ "-" ++ Environment config ++ "-" ++ BucketName (Storage config).
Proof.
  unfold fullBucketName, Sprintf. cbn. now rewrite append_empty_r.
Qed.

(** [main] from step 3 on always returns, with the one app synthesized and
    the one stack under it. *)
Lemma main_declare_heap (config : Config) (w : World) :
  cdk w = [] →
  (main_declare Error config w).1 = Returned tt
  ∧ cdk (main_declare Error config w).2
    = [ {| cdktf.stacks := [ {| cdktf.stackId := jsii.Str (stackName Error config);
                                cdktf.children := stackChildren Error config |} ];
           cdktf.synthesized := true |} ].
Proof.
  destruct w as [fs out h]. cbn [cdk]. intros ->.
  destruct config as [p e r [b v]]. destruct v; split; reflexivity.
Qed.

(** The first two steps of [main], up to the reading of the file. *)
Ltac enter_main :=
  unfold mbind, M_bind, bind, Println, ReadFile, write;
  cbn -[json.Unmarshal main_declare].

(** The three ways a run can go. *)
Lemma run_read_error (fs : string → error + string) (err : error) :
  fs "config.json" = inl err →
  run Error fs
  = (1%Z, {| files := fs;
             stdout := "📄 Reading config.json..." ++ nl
                       ++ "Error reading config.json: " ++ Error err ++ nl;
             cdk := [] |}).
Proof.
  intros Hfs. unfold run, main, start.
  enter_main. rewrite Hfs.
  reflexivity.
Qed.

Lemma run_parse_error (fs : string → error + string) (data : string)
    (config : Config) (err : json.error) :
  fs "config.json" = inr data →
  json.Unmarshal decode_Config data zeroConfig = (config, Some err) →
  run Error fs
  = (1%Z, {| files := fs;
             stdout := "📄 Reading config.json..." ++ nl
                       ++ "Error parsing config.json: " ++ Error (JSONError err) ++ nl;
             cdk := [] |}).
Proof.
  intros Hfs Hdec. unfold run, main, start.
  enter_main. rewrite Hfs, Hdec.
  reflexivity.
Qed.

Lemma run_loads (fs : string → error + string) (config : Config) :
  loads fs config →
  (run Error fs).1 = 0%Z
  ∧ cdk (run Error fs).2
    = [ {| cdktf.stacks := [ {| cdktf.stackId := jsii.Str (stackName Error config);
                                cdktf.children := stackChildren Error config |} ];
           cdktf.synthesized := true |} ].
Proof.
  intros (data & Hfs & Hdec). unfold run, main, start.
  enter_main. rewrite Hfs, Hdec.
  match goal with
  | |- context [main_declare Error config ?w] =>
      destruct (main_declare_heap config w eq_refl) as [Hret Hcdk];
      destruct (main_declare Error config w) as [o w']
  end.
  cbn in Hret, Hcdk. subst o. now split.
Qed.

Lemma declarations_loads (fs : string → error + string) (config : Config) :
  loads fs config → declarations (run Error fs).2 = stackChildren Error config.
Proof.
  intros H. destruct (run_loads fs config H) as [_ Hcdk].
  unfold declarations, cdktf.declarations. rewrite Hcdk.
  exact (app_nil_r (stackChildren Error config)).
Qed.

Lemma stackIdentities_loads (fs : string → error + string) (config : Config) :
  loads fs config → stackIdentities (run Error fs).2 = [jsii.Str (stackName Error config)].
Proof.
  intros H. destruct (run_loads fs config H) as [_ Hcdk].
  unfold stackIdentities, cdktf.stackIds. now rewrite Hcdk.
Qed.

Lemma buckets_loads (fs : string → error + string) (config : Config) :
  loads fs config →
  buckets (run Error fs).2
  = [ {| s3bucket.Bucket := jsii.Str (fullBucketName Error config);
         s3bucket.Tags :=
           <["Project" := jsii.Str (Project config)]>
             (<["Environment" := jsii.Str (Environment config)]>
                (<["ManagedBy" := jsii.Str "CDKTF-JSON-Platform"]> ∅)) |} ].
Proof.
  intros H. unfold buckets. rewrite (declarations_loads fs config H).
  unfold stackChildren. now destruct (EnableVersioning (Storage config)).
Qed.


Lemma bucketNames_loads (fs : string → error + string) (config : Config) :
  loads fs config →
  bucketNames (run Error fs).2 = [ jsii.Str (fullBucketName Error config) ].
Proof.
  intros H. unfold bucketNames. now rewrite (buckets_loads fs config H).
Qed.







(** C7. Unreadable file, and the exit status.  When [config.json] cannot
    be read, the run prints the diagnostic and exits with status 1, with no
    stack and no declaration made.  A run in which the handoff has happened
    exits with status 0 (and only such a run does). *)
Theorem read_error_is_fatal (fs : string → error + string) :
  (∀ err, fs "config.json" = inl err →
     (run Error fs).1 = 1%Z
     ∧ stdout (run Error fs).2
       = "📄 Reading config.json..." ++ nl
         ++ "Error reading config.json: " ++ Error err ++ nl
     ∧ stackIdentities (run Error fs).2 = []
     ∧ declarations (run Error fs).2 = []
     ∧ handedOff (run Error fs).2 = false)
  ∧ (handedOff (run Error fs).2 = true ↔ (run Error fs).1 = 0%Z).
Proof.
  split.
  - intros err Hfs. now rewrite (run_read_error fs err Hfs).
  - destruct (fs "config.json") as [err | data] eqn:Hfs.
    + now rewrite (run_read_error fs err Hfs).
    + destruct (json.Unmarshal decode_Config data zeroConfig) as [config [e |]] eqn:Hdec.
      * now rewrite (run_parse_error fs data config e Hfs Hdec).
      * assert (H : loads fs config) by (exists data; now split).
        destruct (run_loads fs config H) as [Hcode Hcdk].
        unfold handedOff. rewrite Hcode, Hcdk. now split.
Qed.

(** [main] from step 3 on does not look at the files. *)
Lemma main_declare_files (config : Config) (fs1 fs2 : string → error + string)
    (out : string) :
  let r1 := main_declare Error config {| files := fs1; stdout := out; cdk := [] |} in
  let r2 := main_declare Error config {| files := fs2; stdout := out; cdk := [] |} in
  r1.1 = r2.1 ∧ stdout r1.2 = stdout r2.2 ∧ cdk r1.2 = cdk r2.2.
Proof.
  destruct config as [p e r [b v]]. destruct v; repeat split; reflexivity.
Qed.

(** Two runs that load the same configuration end alike. *)
Lemma run_same_config (fs1 fs2 : string → error + string) (config : Config) :
  loads fs1 config → loads fs2 config →
  (run Error fs1).1 = (run Error fs2).1
  ∧ stdout (run Error fs1).2 = stdout (run Error fs2).2
  ∧ cdk (run Error fs1).2 = cdk (run Error fs2).2.
Proof.
  intros (d1 & Hf1 & Hd1) (d2 & Hf2 & Hd2). unfold run, main, start.
  enter_main. rewrite Hf1, Hd1, Hf2, Hd2.
  match goal with
  | |- context [main_declare Error config {| files := fs1; stdout := ?out; cdk := [] |}] =>
      destruct (main_declare_files config fs1 fs2 out) as (Ho & Hout & Hcdk)
  end.
  cbv zeta in Ho, Hout, Hcdk.
  match goal with
  | |- context [main_declare Error config ?w1] =>
      destruct (main_declare Error config w1) as [o1 w1']
  end.
  match goal with
  | |- context [main_declare Error config ?w2] =>
      destruct (main_declare Error config w2) as [o2 w2']
  end.
  cbn [fst snd] in Ho, Hout, Hcdk. subst o2. now destruct o1.
Qed.


(** C2, as the program has it.  Every accepted text is parsed without
    error, whether or not it gives the string fields.  After the parse each
    of [project], [environment], [region] and [storage.bucket_name] holds
    the last string that the document gives for it, empty if that string is
    empty, and holds the empty string when the document gives none. *)
Theorem string_fields_after_parse (data : string) (j : json.Value) :
  json.parse data = Some j →
  fits_Config j = true →
  ∃ config,
    json.Unmarshal decode_Config data zeroConfig = (config, None)
    ∧ Project config = default "" (last (strings_for "project" (members j)))
    ∧ Environment config = default "" (last (strings_for "environment" (members j)))
    ∧ Region config = default "" (last (strings_for "region" (members j)))
    ∧ BucketName (Storage config)
      = default "" (last (strings_for "bucket_name" (storage_members (members j)))).
Proof.
  intros Hj Hfits.
  pose proof (Unmarshal_values data j Hj) as Hv.
  pose proof (proj2 (Unmarshal_ok data)) as Hok.
  unfold accepted in Hok. rewrite Hj in Hok. specialize (Hok Hfits).
  destruct (json.Unmarshal decode_Config data zeroConfig) as [config err].
  cbn [fst snd] in Hv, Hok. subst err. exists config.
  destruct Hv as (Hp & He & Hr & Hn & _). now repeat split.
Qed.


End Properties.

(** ** The properties on the examples *)

(** [loads (configFile data) config], by running the decoder. *)
Ltac loaded data := exists data; split; vm_compute; reflexivity.







Lemma read_error_is_fatal_witness :
  noFile "config.json" = inl (PathError "open" "config.json" "no such file or directory")
  ∧ (run errorText noFile).1 = 1%Z
  ∧ declarations (run errorText noFile).2 = []
  ∧ (handedOff (run errorText (configFile exampleJSON)).2 = true
     ↔ (run errorText (configFile exampleJSON)).1 = 0%Z).
Proof.
  split; [reflexivity |].
  destruct (read_error_is_fatal errorText noFile) as [Hread _].
  destruct (Hread _ eq_refl) as (Hcode & _ & _ & Hdecl & _).
  split; [exact Hcode |]. split; [exact Hdecl |].
  apply (read_error_is_fatal errorText (configFile exampleJSON)).
Defined.


Lemma string_fields_after_parse_witness :
  json.parse emptyJSON = Some (json.JObject [])
  ∧ fits_Config (json.JObject []) = true
  ∧ ∃ config,
      json.Unmarshal decode_Config emptyJSON zeroConfig = (config, None)
      ∧ Project config = ""
      ∧ Environment config = ""
      ∧ Region config = ""
      ∧ BucketName (Storage config) = "".
Proof.
  split; [vm_compute; reflexivity |]. split; [reflexivity |].
  apply (string_fields_after_parse emptyJSON (json.JObject []));
    [vm_compute; reflexivity | reflexivity].
Defined.


(** The two places where the program does otherwise than the
    specification says. *)


(** C2, as the specification states it, fails: the empty object parses
    without error and leaves every string field empty, and the run goes on
    with them. *)
Lemma empty_object_is_loaded :
  json.Unmarshal decode_Config emptyJSON zeroConfig = (zeroConfig, None)
  ∧ Project zeroConfig = ""
  ∧ Environment zeroConfig = ""
  ∧ Region zeroConfig = ""
  ∧ BucketName (Storage zeroConfig) = ""
  ∧ (run errorText (configFile emptyJSON)).1 = 0%Z
  ∧ bucketNames (run errorText (configFile emptyJSON)).2 = [ jsii.Str "--" ].
Proof. vm_compute. repeat split; reflexivity. Qed.

(** ** More of the run *)

Lemma string_app_assoc (a b c : string) : (a ++ b) ++ c = a ++ (b ++ c).
Proof.
  induction a as [| x a IH]; [reflexivity |].
  change (String x ((a ++ b) ++ c) = String x (a ++ (b ++ c))). now f_equal.
Qed.

Section MoreOfTheRun.

Variable Error : error → string.

#[local] Arguments String.append : simpl nomatch.

(** [Sprintf] on the three formats that [main] prints with. *)
Lemma Sprintf_loaded (p e : string) :
  Sprintf Error ("✓ Config loaded for project: %s (environment: %s)" ++ nl ++ nl)
    [fmt.VString p; fmt.VString e]
  = "✓ Config loaded for project: " ++ p ++ " (environment: " ++ e ++ ")" ++ nl ++ nl.
Proof. reflexivity. Qed.

Lemma Sprintf_generated (id : string) :
  Sprintf Error (nl ++ "📁 Generated Terraform in: cdktf.out/stacks/%s/" ++ nl)
    [fmt.VString id]
  = nl ++ "📁 Generated Terraform in: cdktf.out/stacks/" ++ id ++ "/" ++ nl.
Proof. reflexivity. Qed.

Lemma Sprintf_review (id : string) :
  Sprintf Error ("  1. Review: cat cdktf.out/stacks/%s/cdk.tf.json" ++ nl) [fmt.VString id]
  = "  1. Review: cat cdktf.out/stacks/" ++ id ++ "/cdk.tf.json" ++ nl.
Proof. reflexivity. Qed.

Lemma main_declare_stdout (config : Config) (w : World) :
  cdk w = [] →
  stdout (main_declare Error config w).2
  = stdout w
    ++ "✓ Config loaded for project: " ++ Project config
    ++ " (environment: " ++ Environment config ++ ")" ++ nl ++ nl
    ++ "🏗️  Creating infrastructure from config..." ++ nl
    ++ (if EnableVersioning (Storage config)
        then "  ✓ S3 Bucket with versioning enabled"
        else "  ✓ S3 Bucket (no versioning)") ++ nl
    ++ nl ++ "📝 Synthesizing to Terraform JSON..." ++ nl
    ++ "✓ Done!" ++ nl
    ++ nl ++ "📁 Generated Terraform in: cdktf.out/stacks/"
    ++ stackName Error config ++ "/" ++ nl
    ++ nl ++ "Next steps:" ++ nl
    ++ "  1. Review: cat cdktf.out/stacks/" ++ stackName Error config ++ "/cdk.tf.json" ++ nl
    ++ "  2. Deploy: cd cdktf.out/stacks/" ++ stackName Error config
    ++ " && terraform init && terraform apply" ++ nl.
Proof.
  destruct w as [fs out h]. cbn [cdk]. intros ->. destruct config as [p e r [b v]].
  destruct v.
  - cbv -[String.append Sprintf nl stackName].
    rewrite !string_app_assoc, Sprintf_loaded, Sprintf_generated, Sprintf_review,
      !string_app_assoc.
    reflexivity.
  - cbv -[String.append Sprintf nl stackName].
    rewrite !string_app_assoc, Sprintf_loaded, Sprintf_generated, Sprintf_review,
      !string_app_assoc.
    reflexivity.
Qed.
Ltac open_main :=
  unfold run, main, start, mbind, M_bind, bind, Println, ReadFile, write;
  cbn -[json.Unmarshal main_declare String.append].

(** The output of a run that loads a configuration. *)
Lemma run_loads_stdout (fs : string → error + string) (config : Config) :
  loads fs config →
  stdout (run Error fs).2
  = stdout (main_declare Error config
              {| files := fs; stdout := "📄 Reading config.json..." ++ nl; cdk := [] |}).2.
Proof.
  intros (data & Hfs & Hdec). open_main. rewrite Hfs, Hdec.
  match goal with
  | |- stdout (let (o, w) := ?m in _).2 = _ => change m with
      (main_declare Error config
         {| files := fs; stdout := "📄 Reading config.json..." ++ nl; cdk := [] |});
      destruct (main_declare Error config
         {| files := fs; stdout := "📄 Reading config.json..." ++ nl; cdk := [] |})
        as [[a | code] w']
  end; reflexivity.
Qed.

Lemma output_names_the_stack_aux (fs : string → error + string) (config : Config) :
  loads fs config →
  ∃ rest, stdout (run Error fs).2 = ("📄 Reading config.json..." ++ nl) ++ rest.
Proof.
  intros H. rewrite (run_loads_stdout fs config H), main_declare_stdout by reflexivity.
  cbn [stdout]. eauto.
Qed.




(** X4. What is not printed.  The output shows neither the region nor the
    bucket name: two runs whose configurations have the same project,
    environment and versioning flag print the same. *)
Theorem output_hides_region_and_bucket (fs1 fs2 : string → error + string)
    (c1 c2 : Config) :
  loads fs1 c1 →
  loads fs2 c2 →
  Project c1 = Project c2 →
  Environment c1 = Environment c2 →
  EnableVersioning (Storage c1) = EnableVersioning (Storage c2) →
  stdout (run Error fs1).2 = stdout (run Error fs2).2.
Proof.
  intros H1 H2 Hp He Hv.
  rewrite (run_loads_stdout fs1 c1 H1), (run_loads_stdout fs2 c2 H2).
  rewrite !main_declare_stdout by reflexivity.
  rewrite !Sprintf_stackName. cbn [stdout]. now rewrite Hp, He, Hv.
Qed.

(** X5. The first line.  Every run, whatever becomes of it, first prints
    that it is reading [config.json]. *)
Theorem every_run_announces_reading (fs : string → error + string) :
  ∃ rest, stdout (run Error fs).2 = "📄 Reading config.json..." ++ nl ++ rest.
Proof.
  destruct (fs "config.json") as [err | data] eqn:Hfs.
  { rewrite (run_read_error Error fs err Hfs). cbn [snd stdout]. eauto. }
  destruct (json.Unmarshal decode_Config data zeroConfig) as [config [e |]] eqn:Hdec.
  { rewrite (run_parse_error Error fs data config e Hfs Hdec). cbn [snd stdout]. eauto. }
  assert (H : loads fs config) by (exists data; now split).
  destruct (output_names_the_stack_aux fs config H) as [rest ->].
  exists rest. apply string_app_assoc.
Qed.

(** Two runs that decode their files to the same result end alike. *)
Lemma run_same_decoding (fs fs' : string → error + string) (data data' : string) :
  fs "config.json" = inr data →
  fs' "config.json" = inr data' →
  json.Unmarshal decode_Config data zeroConfig
  = json.Unmarshal decode_Config data' zeroConfig →
  alike (run Error fs) (run Error fs').
Proof.
  intros Hfs Hfs' Heq. unfold alike.
  destruct (json.Unmarshal decode_Config data zeroConfig) as [config [e |]] eqn:Hdec.
  - rewrite (run_parse_error Error fs data config e Hfs Hdec).
    now rewrite (run_parse_error Error fs' data' config e Hfs' (eq_sym Heq)).
  - apply (run_same_config Error fs fs' config).
    + exists data. now split.
    + exists data'. now split.
Qed.


(** X7. References.  Every reference that a construct of a run carries
    (the bucket of the versioning resource, the values of the outputs) is
    to an attribute of a bucket that is declared, and declared before the
    construct that refers to it. *)
Theorem references_are_declared (fs : string → error + string) (config : Config) :
  loads fs config →
  ∀ (i : nat) (c : cdktf.Construct) (r : jsii.str),
    declarations (run Error fs).2 !! i = Some c →
    r ∈ referencesOf c →
    ∃ (j : nat) (id attribute : string) (cfg : s3bucket.S3BucketConfig),
      j < i
      ∧ declarations (run Error fs).2 !! j = Some (cdktf.S3Bucket (jsii.Str id) cfg)
      ∧ r = jsii.Attr "aws_s3_bucket" id attribute.
Proof.
  intros H i c r. rewrite (declarations_loads Error fs config H). unfold stackChildren.
  destruct (EnableVersioning (Storage config)); cbn [app];
    do 6 (try destruct i as [| i]); cbn [lookup list_lookup];
    intros Hc Hr; try discriminate; injection Hc as <-; cbn [referencesOf] in Hr;
    try (apply elem_of_nil in Hr; contradiction);
    apply list_elem_of_singleton in Hr; subst r;
    (exists 1; do 3 eexists; split; [lia | split; reflexivity]).
Qed.

End MoreOfTheRun.

(** ** More of the parse step *)

(** *** Documents that decode alike *)

Lemma object_replace {T : Type} (fields : list (json.field T))
    (pre post m m' : list (string * json.Value)) :
  (∀ t saved, json.object fields m t saved = json.object fields m' t saved) →
  ∀ t saved,
    json.object fields (pre ++ m ++ post)%list t saved
    = json.object fields (pre ++ m' ++ post)%list t saved.
Proof.
  intros Hm t saved. rewrite !object_app. now rewrite Hm.
Qed.

Lemma object_Config_inner (pre post sm sm' : list (string * json.Value)) (ks : string) :
  (∀ s saved, json.object StorageConfig_fields sm s saved
              = json.object StorageConfig_fields sm' s saved) →
  ∀ c saved,
    json.object Config_fields (pre ++ (ks, json.JObject sm) :: post)%list c saved
    = json.object Config_fields (pre ++ (ks, json.JObject sm') :: post)%list c saved.
Proof.
  intros Hsm. apply (object_replace Config_fields pre post [(ks, json.JObject sm)]
                       [(ks, json.JObject sm')]).
  intros c saved. rewrite !object_Config_cons.
  destruct (names "project" ks); [reflexivity |].
  destruct (names "environment" ks); [reflexivity |].
  destruct (names "region" ks); [reflexivity |].
  destruct (names "storage" ks); [| reflexivity].
  cbn [decode_StorageConfig json.decode_struct]. now rewrite Hsm.
Qed.

(** An edit that the two field tables do not see is not seen by the
    decoder of [Config]. *)
Lemma edited_decode (Rtop Rinner : relation (list (string * json.Value))) :
  (∀ m m', Rtop m m' →
     ∀ c saved, json.object Config_fields m c saved = json.object Config_fields m' c saved) →
  (∀ m m', Rinner m m' →
     ∀ s saved, json.object StorageConfig_fields m s saved
                = json.object StorageConfig_fields m' s saved) →
  ∀ j j', edited Rtop Rinner j j' →
    ∀ c saved, decode_Config j c saved = decode_Config j' c saved.
Proof.
  intros Htop Hinner j j' [pre post m m' HR | pre post sm1 sm2 m m' ks HR] c saved;
    cbn [decode_Config json.decode_struct].
  - apply object_replace. now apply Htop.
  - apply object_Config_inner. apply object_replace. now apply Hinner.
Qed.

Lemma names_respelt (field k k' : string) :
  json.foldName k = json.foldName k' → names field k = names field k'.
Proof. unfold names. now intros ->. Qed.

Lemma respelt_Config (m m' : list (string * json.Value)) :
  respelt m m' →
  ∀ c saved, json.object Config_fields m c saved = json.object Config_fields m' c saved.
Proof.
  intros (k & k' & v & -> & -> & Hfold) c saved. rewrite !object_Config_cons.
  now rewrite !(names_respelt _ k k' Hfold).
Qed.

Lemma respelt_StorageConfig (m m' : list (string * json.Value)) :
  respelt m m' →
  ∀ s saved, json.object StorageConfig_fields m s saved
             = json.object StorageConfig_fields m' s saved.
Proof.
  intros (k & k' & v & -> & -> & Hfold) s saved. rewrite !object_StorageConfig_cons.
  now rewrite !(names_respelt _ k k' Hfold).
Qed.

Lemma unknown_Config (m m' : list (string * json.Value)) :
  without_unknown names_no_Config_field m m' →
  ∀ c saved, json.object Config_fields m c saved = json.object Config_fields m' c saved.
Proof.
  intros (k & v & -> & -> & Hk) c saved. rewrite object_Config_cons.
  unfold names_no_Config_field in Hk. rewrite !andb_true_iff, !negb_true_iff in Hk.
  destruct Hk as [[[-> ->] ->] ->]. reflexivity.
Qed.

Lemma unknown_StorageConfig (m m' : list (string * json.Value)) :
  without_unknown names_no_StorageConfig_field m m' →
  ∀ s saved, json.object StorageConfig_fields m s saved
             = json.object StorageConfig_fields m' s saved.
Proof.
  intros (k & v & -> & -> & Hk) s saved. rewrite object_StorageConfig_cons.
  unfold names_no_StorageConfig_field in Hk. rewrite !andb_true_iff, !negb_true_iff in Hk.
  destruct Hk as [-> ->]. reflexivity.
Qed.

Lemma null_Config (m m' : list (string * json.Value)) :
  without_null m m' →
  ∀ c saved, json.object Config_fields m c saved = json.object Config_fields m' c saved.
Proof.
  intros (k & -> & ->) c saved. rewrite object_Config_cons.
  destruct c as [p e r s].
  destruct (names "project" k); [reflexivity |].
  destruct (names "environment" k); [reflexivity |].
  destruct (names "region" k); [reflexivity |].
  now destruct (names "storage" k).
Qed.

Lemma null_StorageConfig (m m' : list (string * json.Value)) :
  without_null m m' →
  ∀ s saved, json.object StorageConfig_fields m s saved
             = json.object StorageConfig_fields m' s saved.
Proof.
  intros (k & -> & ->) s saved. rewrite object_StorageConfig_cons.
  destruct s as [b v].
  destruct (names "bucket_name" k); [reflexivity |].
  now destruct (names "enable_versioning" k).
Qed.

Lemma Unmarshal_edited (Rtop Rinner : relation (list (string * json.Value)))
    (data data' : string) (j j' : json.Value) :
  (∀ m m', Rtop m m' →
     ∀ c saved, json.object Config_fields m c saved = json.object Config_fields m' c saved) →
  (∀ m m', Rinner m m' →
     ∀ s saved, json.object StorageConfig_fields m s saved
                = json.object StorageConfig_fields m' s saved) →
  json.parse data = Some j →
  json.parse data' = Some j' →
  edited Rtop Rinner j j' →
  json.Unmarshal decode_Config data zeroConfig
  = json.Unmarshal decode_Config data' zeroConfig.
Proof.
  intros Htop Hinner Hj Hj' Hed. unfold json.Unmarshal. rewrite Hj, Hj'.
  now apply (edited_decode Rtop Rinner).
Qed.

Section MoreOfTheParse.

Variable Error : error → string.

(** X8. Keys in any spelling.  A key is matched to a field by its folded
    name: respelling the key of a member, in the document or in an object
    given for one of its keys, in another case changes neither what
    [Unmarshal] returns nor how the run ends. *)
Theorem keys_match_folded (fs fs' : string → error + string) (data data' : string)
    (j j' : json.Value) :
  fs "config.json" = inr data →
  fs' "config.json" = inr data' →
  json.parse data = Some j →
  json.parse data' = Some j' →
  edited respelt respelt j j' →
  json.Unmarshal decode_Config data zeroConfig
  = json.Unmarshal decode_Config data' zeroConfig
  ∧ alike (run Error fs) (run Error fs').
Proof.
  intros Hfs Hfs' Hj Hj' Hed.
  assert (Heq := Unmarshal_edited respelt respelt data data' j j'
                   respelt_Config respelt_StorageConfig Hj Hj' Hed).
  split; [exact Heq |]. now apply (run_same_decoding Error fs fs' data data').
Qed.

(** X9. Members that name no field.  A member whose key names none of the
    fields of [Config] (in the document) or of [StorageConfig] (in an
    object given for a key of the document) is skipped, whatever its
    value: taking it out changes neither what [Unmarshal] returns nor how
    the run ends. *)
Theorem unknown_members_are_skipped (fs fs' : string → error + string)
    (data data' : string) (j j' : json.Value) :
  fs "config.json" = inr data →
  fs' "config.json" = inr data' →
  json.parse data = Some j →
  json.parse data' = Some j' →
  edited (without_unknown names_no_Config_field)
         (without_unknown names_no_StorageConfig_field) j j' →
  json.Unmarshal decode_Config data zeroConfig
  = json.Unmarshal decode_Config data' zeroConfig
  ∧ alike (run Error fs) (run Error fs').
Proof.
  intros Hfs Hfs' Hj Hj' Hed.
  assert (Heq := Unmarshal_edited _ _ data data' j j'
                   unknown_Config unknown_StorageConfig Hj Hj' Hed).
  split; [exact Heq |]. now apply (run_same_decoding Error fs fs' data data').
Qed.

(** X10. [null].  A member whose value is [null] stores nothing and is no
    error, whatever field it names: taking it out changes neither what
    [Unmarshal] returns nor how the run ends. *)
Theorem null_members_are_skipped (fs fs' : string → error + string)
    (data data' : string) (j j' : json.Value) :
  fs "config.json" = inr data →
  fs' "config.json" = inr data' →
  json.parse data = Some j →
  json.parse data' = Some j' →
  edited without_null without_null j j' →
  json.Unmarshal decode_Config data zeroConfig
  = json.Unmarshal decode_Config data' zeroConfig
  ∧ alike (run Error fs) (run Error fs').
Proof.
  intros Hfs Hfs' Hj Hj' Hed.
  assert (Heq := Unmarshal_edited _ _ data data' j j'
                   null_Config null_StorageConfig Hj Hj' Hed).
  split; [exact Heq |]. now apply (run_same_decoding Error fs fs' data data').
Qed.

End MoreOfTheParse.

(** *** The error returned *)

Lemma first_error_cons {A : Type} (f : A → option json.error) (x : A) (l : list A) :
  first_error f (x :: l)
  = match f x with Some e => Some e | None => first_error f l end.
Proof. unfold first_error. cbn [omap list_omap]. now destruct (f x). Qed.

(** The error a decoder leaves: the one saved before it, if any, and else
    its own. *)
Lemma decode_string_error (v : json.Value) (s : string) (saved : option json.error) :
  (json.decode_string v s saved).2
  = match saved with
    | Some e => Some e
    | None => kind_error (fits_string v) v "string"
    end.
Proof. destruct v, saved; reflexivity. Qed.

Lemma decode_bool_error (v : json.Value) (b : bool) (saved : option json.error) :
  (json.decode_bool v b saved).2
  = match saved with
    | Some e => Some e
    | None => kind_error (fits_bool v) v "bool"
    end.
Proof. destruct v, saved; reflexivity. Qed.

Lemma object_StorageConfig_error (ms : list (string * json.Value)) (s : StorageConfig)
    (saved : option json.error) :
  (json.object StorageConfig_fields ms s saved).2
  = match saved with
    | Some e => Some e
    | None => first_error StorageConfig_member_error ms
    end.
Proof.
  revert s saved. induction ms as [| [k v] ms IH]; intros s saved.
  { now destruct saved. }
  rewrite object_StorageConfig_cons, first_error_cons.
  unfold StorageConfig_member_error. cbn [fst snd].
  destruct (names "bucket_name" k).
  { rewrite IH, decode_string_error. destruct saved; [reflexivity |].
    now destruct (kind_error (fits_string v) v "string"). }
  destruct (names "enable_versioning" k).
  { rewrite IH, decode_bool_error. destruct saved; [reflexivity |].
    now destruct (kind_error (fits_bool v) v "bool"). }
  apply IH.
Qed.

Lemma decode_StorageConfig_error (v : json.Value) (s : StorageConfig)
    (saved : option json.error) :
  (decode_StorageConfig v s saved).2
  = match saved with
    | Some e => Some e
    | None => StorageConfig_error v
    end.
Proof.
  destruct v; try (now destruct saved). apply object_StorageConfig_error.
Qed.

Lemma object_Config_error (ms : list (string * json.Value)) (c : Config)
    (saved : option json.error) :
  (json.object Config_fields ms c saved).2
  = match saved with
    | Some e => Some e
    | None => first_error Config_member_error ms
    end.
Proof.
  revert c saved. induction ms as [| [k v] ms IH]; intros c saved.
  { now destruct saved. }
  rewrite object_Config_cons, first_error_cons.
  unfold Config_member_error. cbn [fst snd].
  destruct (names "project" k).
  { rewrite IH, decode_string_error. destruct saved; [reflexivity |].
    now destruct (kind_error (fits_string v) v "string"). }
  destruct (names "environment" k).
  { rewrite IH, decode_string_error. destruct saved; [reflexivity |].
    now destruct (kind_error (fits_string v) v "string"). }
  destruct (names "region" k).
  { rewrite IH, decode_string_error. destruct saved; [reflexivity |].
    now destruct (kind_error (fits_string v) v "string"). }
  destruct (names "storage" k).
  { rewrite IH, decode_StorageConfig_error. destruct saved; [reflexivity |].
    now destruct (StorageConfig_error v). }
  apply IH.
Qed.


Section TheDiagnostic.

Variable Error : error → string.


End TheDiagnostic.

(** *** White space around the document *)









Section AroundTheDocument.

Variable Error : error → string.


End AroundTheDocument.

(** ** The derived names *)




Section TheNames.

Variable Error : error → string.


(** X14. Names that meet.  A hyphen in the project is not told from the
    hyphen that joins: a configuration whose project is [p-x] and whose
    environment is [e] gets the stack identity and the bucket name of the
    one whose project is [p] and whose environment is [x-e]. *)
Theorem names_meet_across_the_hyphen (fs1 fs2 : string → error + string)
    (c1 c2 : Config) (x : string) :
  loads fs1 c1 →
  loads fs2 c2 →
  Project c1 = Project c2 ++ "-" ++ x →
  Environment c2 = x ++ "-" ++ Environment c1 →
  BucketName (Storage c1) = BucketName (Storage c2) →
  stackIdentities (run Error fs1).2 = stackIdentities (run Error fs2).2
  ∧ bucketNames (run Error fs1).2 = bucketNames (run Error fs2).2.
Proof.
  intros H1 H2 Hp He Hb.
  rewrite (stackIdentities_loads Error fs1 c1 H1), (stackIdentities_loads Error fs2 c2 H2).
  rewrite (bucketNames_loads Error fs1 c1 H1), (bucketNames_loads Error fs2 c2 H2).
  rewrite !Sprintf_stackName, !Sprintf_fullBucketName, Hp, He, Hb.
  rewrite !string_app_assoc. now split.
Qed.

End TheNames.

(** *** The order of the members *)

Lemma names_one_of (field k1 k2 : string) :
  json.foldName k1 ≠ json.foldName k2 →
  names field k1 = false ∨ names field k2 = false.
Proof.
  intros Hne. unfold names.
  destruct (String.eqb (json.foldName field) (json.foldName k1)) eqn:E1; [| now left].
  right. apply String.eqb_eq in E1. apply String.eqb_neq. congruence.
Qed.

Lemma strings_for_swap (field : string) (a b : string * json.Value) :
  json.foldName a.1 ≠ json.foldName b.1 →
  strings_for field [a; b] = strings_for field [b; a].
Proof.
  destruct a as [k1 v1], b as [k2 v2]. cbn [fst]. intros Hne.
  rewrite !strings_for_cons.
  destruct (names_one_of field k1 k2 Hne) as [-> | ->];
    cbn [app]; now rewrite ?app_nil_r.
Qed.

Lemma bools_for_swap (field : string) (a b : string * json.Value) :
  json.foldName a.1 ≠ json.foldName b.1 →
  bools_for field [a; b] = bools_for field [b; a].
Proof.
  destruct a as [k1 v1], b as [k2 v2]. cbn [fst]. intros Hne.
  rewrite !bools_for_cons.
  destruct (names_one_of field k1 k2 Hne) as [-> | ->];
    cbn [app]; now rewrite ?app_nil_r.
Qed.

Lemma storage_members_swap (a b : string * json.Value) :
  json.foldName a.1 ≠ json.foldName b.1 →
  storage_members [a; b] = storage_members [b; a].
Proof.
  destruct a as [k1 v1], b as [k2 v2]. cbn [fst]. intros Hne.
  rewrite !storage_members_cons.
  destruct (names_one_of "storage" k1 k2 Hne) as [-> | ->];
    cbn [app storage_members map concat]; now rewrite ?app_nil_r.
Qed.

Lemma first_error_swap {A : Type} (f : A → option json.error) (a b : A) :
  f a = None ∨ f b = None → first_error f [a; b] = first_error f [b; a].
Proof.
  rewrite !first_error_cons. intros [Ha | Hb].
  - rewrite Ha. now destruct (f b).
  - rewrite Hb. now destruct (f a).
Qed.

Lemma pair_eq_parts {A B : Type} (x y : A * B) : x.1 = y.1 → x.2 = y.2 → x = y.
Proof. destruct x, y. cbn. now intros -> ->. Qed.

Lemma swapped_Config (m m' : list (string * json.Value)) :
  swapped Config_member_error m m' →
  ∀ c saved, json.object Config_fields m c saved = json.object Config_fields m' c saved.
Proof.
  intros (a & b & -> & -> & Hne & Herr) c saved. apply pair_eq_parts.
  - destruct (object_Config_values [a; b] c saved) as (Hp & He & Hr & Hn & Hf).
    destruct (object_Config_values [b; a] c saved) as (Hp' & He' & Hr' & Hn' & Hf').
    apply Config_eq.
    + now rewrite Hp, Hp', (strings_for_swap _ a b Hne).
    + now rewrite He, He', (strings_for_swap _ a b Hne).
    + now rewrite Hr, Hr', (strings_for_swap _ a b Hne).
    + now rewrite Hn, Hn', (storage_members_swap a b Hne).
    + now rewrite Hf, Hf', (storage_members_swap a b Hne).
  - rewrite !object_Config_error. destruct saved; [reflexivity |].
    now apply first_error_swap.
Qed.

Lemma swapped_StorageConfig (m m' : list (string * json.Value)) :
  swapped StorageConfig_member_error m m' →
  ∀ s saved, json.object StorageConfig_fields m s saved
             = json.object StorageConfig_fields m' s saved.
Proof.
  intros (a & b & -> & -> & Hne & Herr) s saved. apply pair_eq_parts.
  - destruct (object_StorageConfig_values [a; b] s saved) as (Hn & Hf).
    destruct (object_StorageConfig_values [b; a] s saved) as (Hn' & Hf').
    destruct (json.object StorageConfig_fields [a; b] s saved).1 as [n1 f1].
    destruct (json.object StorageConfig_fields [b; a] s saved).1 as [n2 f2].
    cbn [BucketName EnableVersioning] in Hn, Hf, Hn', Hf'.
    rewrite Hn, Hf, Hn', Hf'.
    now rewrite (strings_for_swap _ a b Hne), (bools_for_swap _ a b Hne).
  - rewrite !object_StorageConfig_error. destruct saved; [reflexivity |].
    now apply first_error_swap.
Qed.

Section TheOrder.

Variable Error : error → string.

(** X15. The order of the members.  Two neighbouring members, of the
    document or of an object given for one of its keys, whose keys fold to
    different names and of which at most one is in error, can change
    places: what [Unmarshal] returns and how the run ends stay the same. *)
Theorem member_order_is_free (fs fs' : string → error + string) (data data' : string)
    (j j' : json.Value) :
  fs "config.json" = inr data →
  fs' "config.json" = inr data' →
  json.parse data = Some j →
  json.parse data' = Some j' →
  edited (swapped Config_member_error) (swapped StorageConfig_member_error) j j' →
  json.Unmarshal decode_Config data zeroConfig
  = json.Unmarshal decode_Config data' zeroConfig
  ∧ alike (run Error fs) (run Error fs').
Proof.
  intros Hfs Hfs' Hj Hj' Hed.
  assert (Heq := Unmarshal_edited _ _ data data' j j'
                   swapped_Config swapped_StorageConfig Hj Hj' Hed).
  split; [exact Heq |]. now apply (run_same_decoding Error fs fs' data data').
Qed.


End TheOrder.

(** ** The further properties on the examples *)



Lemma output_hides_region_and_bucket_witness :
  loads (configFile exampleJSON) exampleConfig
  ∧ loads (configFile otherBucketJSON) otherBucketConfig
  ∧ Region exampleConfig ≠ Region otherBucketConfig
  ∧ BucketName (Storage exampleConfig) ≠ BucketName (Storage otherBucketConfig)
  ∧ stdout (run errorText (configFile exampleJSON)).2
    = stdout (run errorText (configFile otherBucketJSON)).2.
Proof.
  split; [loaded exampleJSON |]. split; [loaded otherBucketJSON |].
  split; [discriminate |]. split; [discriminate |].
  apply (output_hides_region_and_bucket errorText (configFile exampleJSON)
           (configFile otherBucketJSON) exampleConfig otherBucketConfig);
    first [loaded exampleJSON | loaded otherBucketJSON | reflexivity].
Defined.


Lemma references_are_declared_witness :
  loads (configFile exampleJSON) exampleConfig
  ∧ ∃ (j : nat) (id attribute : string) (cfg : s3bucket.S3BucketConfig),
      j < 2
      ∧ declarations (run errorText (configFile exampleJSON)).2 !! j
        = Some (cdktf.S3Bucket (jsii.Str id) cfg)
      ∧ jsii.Attr "aws_s3_bucket" "bucket" "bucket" = jsii.Attr "aws_s3_bucket" id attribute.
Proof.
  split; [loaded exampleJSON |].
  apply (references_are_declared errorText (configFile exampleJSON) exampleConfig
           ltac:(loaded exampleJSON) 2
           (cdktf.S3BucketVersioningA (jsii.Str "versioning")
              {| s3bucketversioning.Bucket := jsii.Attr "aws_s3_bucket" "bucket" "bucket";
                 s3bucketversioning.VersioningConfiguration :=
                   {| s3bucketversioning.Status := jsii.Str "Enabled" |} |})).
  - vm_compute. reflexivity.
  - apply list_elem_of_singleton. reflexivity.
Defined.

Lemma keys_match_folded_witness :
  json.Unmarshal decode_Config capitalsJSON zeroConfig
  = json.Unmarshal decode_Config exampleJSON zeroConfig
  ∧ alike (run errorText (configFile capitalsJSON)) (run errorText (configFile exampleJSON)).
Proof.
  apply (keys_match_folded errorText (configFile capitalsJSON) (configFile exampleJSON)
           capitalsJSON exampleJSON
           (json.JObject ([] ++ [("PROJECT", json.JString "my-app")] ++ exampleTail))
           (json.JObject ([] ++ [("project", json.JString "my-app")] ++ exampleTail))).
  - reflexivity.
  - reflexivity.
  - vm_compute. reflexivity.
  - vm_compute. reflexivity.
  - apply edited_top. exists "PROJECT", "project", (json.JString "my-app").
    repeat split.
Defined.

Lemma unknown_members_are_skipped_witness :
  json.Unmarshal decode_Config lifecycleJSON zeroConfig
  = json.Unmarshal decode_Config exampleJSON zeroConfig
  ∧ alike (run errorText (configFile lifecycleJSON)) (run errorText (configFile exampleJSON)).
Proof.
  apply (unknown_members_are_skipped errorText (configFile lifecycleJSON)
           (configFile exampleJSON) lifecycleJSON exampleJSON
           (json.JObject
              ([ ("project", json.JString "my-app"); ("environment", json.JString "dev");
                 ("region", json.JString "us-west-2") ]
               ++ ("storage",
                   json.JObject
                     ([ ("bucket_name", json.JString "data") ]
                      ++ [ ("lifecycle",
                            json.JArray [ json.JNumber "30"; json.JString "days" ]) ]
                      ++ [ ("enable_versioning", json.JBool true) ])) :: []))
           (json.JObject
              ([ ("project", json.JString "my-app"); ("environment", json.JString "dev");
                 ("region", json.JString "us-west-2") ]
               ++ ("storage",
                   json.JObject
                     ([ ("bucket_name", json.JString "data") ]
                      ++ [] ++ [ ("enable_versioning", json.JBool true) ])) :: []))).
  - reflexivity.
  - reflexivity.
  - vm_compute. reflexivity.
  - vm_compute. reflexivity.
  - apply edited_inner.
    exists "lifecycle", (json.JArray [ json.JNumber "30"; json.JString "days" ]).
    repeat split.
Defined.

Lemma null_members_are_skipped_witness :
  json.Unmarshal decode_Config nullRegionJSON zeroConfig
  = json.Unmarshal decode_Config exampleJSON zeroConfig
  ∧ alike (run errorText (configFile nullRegionJSON)) (run errorText (configFile exampleJSON)).
Proof.
  apply (null_members_are_skipped errorText (configFile nullRegionJSON)
           (configFile exampleJSON) nullRegionJSON exampleJSON
           (json.JObject
              ([ ("project", json.JString "my-app"); ("environment", json.JString "dev");
                 ("region", json.JString "us-west-2") ]
               ++ [ ("region", json.JNull) ]
               ++ [ ("storage", json.JObject exampleStorage) ]))
           (json.JObject
              ([ ("project", json.JString "my-app"); ("environment", json.JString "dev");
                 ("region", json.JString "us-west-2") ]
               ++ [] ++ [ ("storage", json.JObject exampleStorage) ]))).
  - reflexivity.
  - reflexivity.
  - vm_compute. reflexivity.
  - vm_compute. reflexivity.
  - apply edited_top. exists "region". now split.
Defined.




Lemma names_meet_across_the_hyphen_witness :
  loads (configFile exampleJSON) exampleConfig
  ∧ loads (configFile shiftedJSON) shiftedConfig
  ∧ Project exampleConfig ≠ Project shiftedConfig
  ∧ stackIdentities (run errorText (configFile exampleJSON)).2
    = stackIdentities (run errorText (configFile shiftedJSON)).2
  ∧ bucketNames (run errorText (configFile exampleJSON)).2
    = bucketNames (run errorText (configFile shiftedJSON)).2.
Proof.
  split; [loaded exampleJSON |]. split; [loaded shiftedJSON |]. split; [discriminate |].
  apply (names_meet_across_the_hyphen errorText (configFile exampleJSON)
           (configFile shiftedJSON) exampleConfig shiftedConfig "app");
    first [loaded exampleJSON | loaded shiftedJSON | reflexivity].
Defined.

Lemma member_order_is_free_witness :
  json.Unmarshal decode_Config reorderedJSON zeroConfig
  = json.Unmarshal decode_Config exampleJSON zeroConfig
  ∧ alike (run errorText (configFile reorderedJSON)) (run errorText (configFile exampleJSON)).
Proof.
  apply (member_order_is_free errorText (configFile reorderedJSON) (configFile exampleJSON)
           reorderedJSON exampleJSON
           (json.JObject
              ([] ++ [ ("environment", json.JString "dev");
                       ("project", json.JString "my-app") ]
               ++ [ ("region", json.JString "us-west-2");
                    ("storage", json.JObject exampleStorage) ]))
           (json.JObject
              ([] ++ [ ("project", json.JString "my-app");
                       ("environment", json.JString "dev") ]
               ++ [ ("region", json.JString "us-west-2");
                    ("storage", json.JObject exampleStorage) ]))).
  - reflexivity.
  - reflexivity.
  - vm_compute. reflexivity.
  - vm_compute. reflexivity.
  - apply edited_top.
    exists ("environment", json.JString "dev"), ("project", json.JString "my-app").
    split; [reflexivity |]. split; [reflexivity |].
    split; [vm_compute; discriminate | left; vm_compute; reflexivity].
Defined.

